(** * nav2 test harnesses: planner tester and recovery test

    A shallow embedding of
    - [nav2_system_tests/src/planning/planner_tester.cpp] (module [PlannerTester]),
    - [nav2_recoveries/test/test_recoveries.cpp] (module [RecoveryTest]),
    with the properties the specification states about them. *)

From Stdlib Require Import ZArith QArith List Bool Lia.
From Stdlib Require String.
From Stdlib Require Import Floats.SpecFloat.
Import ListNotations String.StringSyntax.
Local Open Scope Z_scope.
Delimit Scope string_scope with string.

Definition string : Type := String.string.

(** ** Outcomes of a C++ call

    A call returns a value, leaves by an exception, or steps outside what the
    language defines (an out-of-bounds element access, an arithmetic or
    conversion whose result the language leaves undefined).  [Starved] is the
    model's own: the recorded environment ran out before the call returned. *)

Inductive Result (A : Type) : Type :=
| Ok (a : A)
| Thrown (what : string)
| Undefined
| Starved.

Arguments Ok {A} a.
Arguments Thrown {A} what.
Arguments Undefined {A}.
Arguments Starved {A}.

Definition bind {A B : Type} (c : Result A) (k : A -> Result B) : Result B :=
  match c with
  | Ok a => k a
  | Thrown w => Thrown w
  | Undefined => Undefined
  | Starved => Starved
  end.

Declare Scope result_scope.
Delimit Scope result_scope with result.
Notation "x <- c ;; k" := (bind c (fun x => k))
  (at level 61, c at next level, right associativity) : result_scope.
Notation "' p <- c ;; k" := (bind c (fun p => k))
  (at level 61, p pattern, c at next level, right associativity) : result_scope.
Local Open Scope result_scope.

(** ** Floating-point values

    [double] is IEEE binary64 and [float] binary32, both as the Standard
    Library's [spec_float]; values are canonical ([valid_binary]), which is
    what [SFcompare] expects. *)

Module FP.

Definition double : Type := spec_float.
Definition float : Type := spec_float.

Definition double_of_Z (z : Z) : double := binary_normalize 53 1024 z 0 false.
Definition float_of_Z (z : Z) : float := binary_normalize 24 128 z 0 false.

(** [a == b] and [a > b] on floating-point operands. *)
Definition fp_eq (a b : spec_float) : bool := SFeqb a b.
Definition fp_gt (a b : spec_float) : bool := SFltb b a.

(** The integral part of a finite value (truncation toward zero); NaN and
    the infinities have none. *)
Definition trunc_Z (v : spec_float) : option Z :=
  match v with
  | S754_zero _ => Some 0
  | S754_finite s m e =>
      let mag := if 0 <=? e then Zpos m * 2 ^ e else Zpos m / 2 ^ (- e) in
      Some (if s then - mag else mag)
  | S754_infinity _ | S754_nan => None
  end.

(** [std::round]: the nearest integral value, halfway cases away from zero,
    as a double.  A value with a non-negative exponent is integral already. *)
Definition std_round (v : double) : double :=
  match v with
  | S754_finite s m e =>
      if 0 <=? e then v
      else
        let mag := (Zpos m + 2 ^ (- e - 1)) / 2 ^ (- e) in
        binary_normalize 53 1024 (if s then - mag else mag) 0 s
  | _ => v
  end.

Definition UINT_MAX : Z := 2 ^ 32 - 1.

(** [static_cast<unsigned int>(v)] on a double: the fractional part is
    discarded, and the behaviour is undefined when the truncated value is not
    representable in [unsigned int] (C++ [conv.fpint]); NaN and the infinities
    have no truncated value. *)
Definition static_cast_unsigned_int (v : double) : Result Z :=
  match trunc_Z v with
  | Some z => if (0 <=? z) && (z <=? UINT_MAX) then Ok z else Undefined
  | None => Undefined
  end.

End FP.


(** ** The client library's result codes *)

Module Rclcpp.

(** [rclcpp_action::ResultCode]. *)
Inductive ResultCode : Type :=
| RC_UNKNOWN
| RC_SUCCEEDED
| RC_CANCELED
| RC_ABORTED.

Definition ResultCode_eqb (a b : ResultCode) : bool :=
  match a, b with
  | RC_UNKNOWN, RC_UNKNOWN | RC_SUCCEEDED, RC_SUCCEEDED
  | RC_CANCELED, RC_CANCELED | RC_ABORTED, RC_ABORTED => true
  | _, _ => false
  end.

(** [rclcpp::executor::FutureReturnCode]. *)
Inductive FutureReturnCode : Type :=
| SUCCESS
| INTERRUPTED
| TIMEOUT.

Definition FutureReturnCode_eqb (a b : FutureReturnCode) : bool :=
  match a, b with
  | SUCCESS, SUCCESS | INTERRUPTED, INTERRUPTED | TIMEOUT, TIMEOUT => true
  | _, _ => false
  end.

End Rclcpp.

(** ** Planner tester ([planner_tester.hpp], [planner_tester.cpp]) *)

Module PlannerTester.
Import FP Rclcpp.

(** [enum class TaskStatus : int8_t]. *)
Inductive TaskStatus : Type :=
| SUCCEEDED   (* = 1 *)
| FAILED      (* = 2 *)
| RUNNING.    (* = 3 *)

(** The message types, with the fields the tester reads:
    [geometry_msgs::msg::Point], [geometry_msgs::msg::Pose],
    [geometry_msgs::msg::PoseStamped] ([ComputePathToPoseCommand]) and
    [nav2_msgs::msg::Path] ([ComputePathToPoseResult]). *)
Record Point : Type := mkPoint { x : double; y : double }.
Record Pose : Type := mkPose { position : Point }.
Record PoseStamped : Type := mkPoseStamped { pose : Pose }.
Record Path : Type := mkPath { poses : list Pose }.

Definition ComputePathToPoseCommand : Type := PoseStamped.
Definition ComputePathToPoseResult : Type := Path.

(** Element access on a [std::vector]: [v[i]] is defined for
    [0 <= i < v.size()] only. *)
Definition vector_at {A : Type} (v : list A) (i : Z) : option A :=
  if (0 <=? i) && (i <? Z.of_nat (length v)) then nth_error v (Z.to_nat i)
  else None.

(** What the action client answers to one [sendRequest]. *)
Record PlannerResponse : Type := mkPlannerResponse {
  goal_future_ready : bool;    (* future_goal_handle.wait_for(5s) == ready *)
  goal_handle_valid : bool;    (* the goal handle is not null *)
  result_future_ready : bool;  (* future_result.wait_for(10s) == ready *)
  result_code : ResultCode;    (* result.code *)
  result_path : Path           (* result.result->path *)
}.

(** [PlannerTester::sendRequest]; [path] is the caller's object, written on
    success only. *)
Definition sendRequest (response : PlannerResponse)
    (goal : ComputePathToPoseCommand) (path : ComputePathToPoseResult)
  : TaskStatus * ComputePathToPoseResult :=
  if negb (goal_future_ready response) then (FAILED, path)
  else if negb (goal_handle_valid response) then (FAILED, path)
  else if negb (result_future_ready response) then (FAILED, path)
  else if negb (ResultCode_eqb (result_code response) RC_SUCCEEDED) then (FAILED, path)
  else (SUCCEEDED, result_path response).

(** [PlannerTester::isWithinTolerance], the five-argument overload.  The
    source leaves the last two parameters unnamed. *)
Definition isWithinTolerance5 (robot_position : Point)
    (goal : ComputePathToPoseCommand) (path : ComputePathToPoseResult)
    (deviationTolerance : double) (reference_path : ComputePathToPoseResult)
  : Result bool :=
  match vector_at (poses path) 0,
        vector_at (poses path) (Z.of_nat (length (poses path)) - 1) with
  | Some path_start, Some path_end =>
      if fp_eq (x (position path_start)) (x robot_position) &&
         fp_eq (y (position path_start)) (y robot_position) &&
         fp_eq (x (position path_end)) (x (position (pose goal))) &&
         fp_eq (y (position path_end)) (y (position (pose goal)))
      then Ok true
      else Ok false
  | _, _ => Undefined
  end.

(** [PlannerTester::isWithinTolerance], the three-argument overload. *)
Definition isWithinTolerance (robot_position : Point)
    (goal : ComputePathToPoseCommand) (path : ComputePathToPoseResult)
  : Result bool :=
  isWithinTolerance5 robot_position goal path (S754_zero false) (mkPath []).

Section WithCostmap.

(** [nav2_util::Costmap::is_free(unsigned int, unsigned int)] of the costmap
    the tester holds. *)
Variable is_free : Z -> Z -> bool.

(** The cell [isCollisionFree] looks a pose up at. *)
Definition cell_of (p : Pose) : Result (Z * Z) :=
  mx <- static_cast_unsigned_int (std_round (x (position p))) ;;
  my <- static_cast_unsigned_int (std_round (y (position p))) ;;
  Ok (mx, my).

(** The loop of [PlannerTester::isCollisionFree] over [path.poses]. *)
Fixpoint isCollisionFree_poses (ps : list Pose) : Result bool :=
  match ps with
  | [] => Ok true
  | p :: rest =>
      ' (mx, my) <- cell_of p ;;
      let collisionFree := is_free mx my in
      if negb collisionFree then Ok false
      else isCollisionFree_poses rest
  end.

(** [PlannerTester::isCollisionFree]. *)
Definition isCollisionFree (path : ComputePathToPoseResult) : Result bool :=
  isCollisionFree_poses (poses path).

(** [PlannerTester::plannerTest]; the written-back [path] is returned beside
    the verdict. *)
Definition plannerTest (response : PlannerResponse) (robot_position : Point)
    (goal : ComputePathToPoseCommand) (path : ComputePathToPoseResult)
  : Result (bool * ComputePathToPoseResult) :=
  let '(status, path) := sendRequest response goal path in
  match status with
  | FAILED => Ok (false, path)
  | SUCCEEDED =>
      free <- isCollisionFree path ;;
      if free then
        within <- isWithinTolerance robot_position goal path ;;
        Ok (within, path)
      else Ok (false, path)
  | RUNNING => Ok (false, path)
  end.

(** The tester's fields the random batch reads. *)
Record Tester : Type := mkTester {
  costmap_set_ : bool;
  using_fake_costmap_ : bool
}.

(** What the batch meets while it runs: whether the action server shows up
    within [waitForPlanner]'s 10 s, the successive draws
    [(distribution_x(generator), distribution_y(generator))] and the answers
    to the successive requests. *)
Record Environment : Type := mkEnvironment {
  planner_running : bool;
  draws : list (Z * Z);
  responses : list PlannerResponse
}.

(** [PlannerTester::waitForPlanner]. *)
Definition waitForPlanner (env : Environment) : Result unit :=
  if negb (planner_running env) then Thrown "Planner not running"%string
  else Ok tt.

(** An [int] argument passed for an [unsigned int] parameter. *)
Definition to_unsigned (z : Z) : Z := z mod 2 ^ 32.

(** The lambda [generate_random]: draws until the drawn cell is free. *)
Fixpoint generate_random (ds : list (Z * Z)) : Result ((Z * Z) * list (Z * Z)) :=
  match ds with
  | [] => Starved
  | (dx, dy) :: rest =>
      let point_is_free := is_free (to_unsigned dx) (to_unsigned dy) in
      if point_is_free then Ok ((dx, dy), rest) else generate_random rest
  end.

(** The [for] loop of [defaultPlannerRandomTests], [remaining] iterations
    from the state [(ds, rs, num_fail, path)]; it yields [num_fail]. *)
Fixpoint random_tests_loop (remaining : nat) (ds : list (Z * Z))
    (rs : list PlannerResponse) (num_fail : Z) (path : ComputePathToPoseResult)
  : Result Z :=
  match remaining with
  | O => Ok num_fail
  | S remaining' =>
      ' (vals, ds) <- generate_random ds ;;
      let robot_position :=
        mkPoint (double_of_Z (fst vals)) (double_of_Z (snd vals)) in
      ' (vals, ds) <- generate_random ds ;;
      let goal :=
        mkPoseStamped (mkPose
          (mkPoint (double_of_Z (fst vals)) (double_of_Z (snd vals)))) in
      match rs with
      | [] => Starved
      | response :: rs =>
          ' (passed, path) <- plannerTest response robot_position goal path ;;
          let num_fail :=
            if negb passed then (num_fail + 1) mod 2 ^ 32 else num_fail in
          random_tests_loop remaining' ds rs num_fail path
      end
  end.

(** The closing comparison [(num_fail / number_tests) > acceptable_fail_ratio]:
    both operands of [/] are [unsigned int], the quotient is converted to
    [float] for the comparison; division by zero is undefined. *)
Definition fail_ratio_exceeded (num_fail number_tests : Z)
    (acceptable_fail_ratio : float) : Result bool :=
  if number_tests =? 0 then Undefined
  else Ok (fp_gt (float_of_Z (num_fail / number_tests)) acceptable_fail_ratio).

(** [PlannerTester::defaultPlannerRandomTests]. *)
Definition defaultPlannerRandomTests (self : Tester) (env : Environment)
    (number_tests : Z) (acceptable_fail_ratio : float) : Result bool :=
  if negb (costmap_set_ self) then Ok false
  else if using_fake_costmap_ self then Ok false
  else
    _ <- waitForPlanner env ;;
    num_fail <- random_tests_loop (Z.to_nat number_tests) (draws env)
                  (responses env) 0 (mkPath []) ;;
    exceeded <- fail_ratio_exceeded num_fail number_tests acceptable_fail_ratio ;;
    if exceeded then Ok false else Ok true.

End WithCostmap.

(** Following the specification's words, for comparison with the code: "the
    observed failure count / N exceeds the configured threshold", on the exact
    fraction [num_fail / N] and the exact value of the threshold. *)
Definition float_value (f : float) : option Q :=
  match f with
  | S754_zero _ => Some 0%Q
  | S754_finite s m e =>
      let v := (inject_Z (Zpos m) * Qpower 2 e)%Q in
      Some (if s then Qopp v else v)
  | S754_infinity _ | S754_nan => None
  end.

Definition observed_ratio_exceeds (num_fail N : Z) (threshold : float) : bool :=
  match float_value threshold with
  | Some t => negb (Qle_bool (Qmake num_fail (Z.to_pos N)) t)
  | None =>
      match threshold with
      | S754_infinity true => true
      | _ => false
      end
  end.

End PlannerTester.

(** ** Recovery test ([test_recoveries.cpp]) *)

Module RecoveryTest.
Import Rclcpp.
Local Open Scope string_scope.

(** [nav2_recoveries::Status]. *)
Inductive Status : Type :=
| SUCCEEDED
| FAILED
| RUNNING.

(** Time points of [std::chrono::system_clock], in nanoseconds. *)
Definition time_point : Type := Z.
Definition seconds (n : Z) : Z := n * 1000000000.

(** [class DummyRecovery]: its own fields. *)
Record DummyRecovery : Type := mkDummyRecovery {
  initialized_ : bool;
  command_ : string;
  start_time_ : time_point
}.

Definition set_initialized_ (b : bool) (self : DummyRecovery) : DummyRecovery :=
  mkDummyRecovery b (command_ self) (start_time_ self).
Definition set_command_ (c : string) (self : DummyRecovery) : DummyRecovery :=
  mkDummyRecovery (initialized_ self) c (start_time_ self).
Definition set_start_time_ (t : time_point) (self : DummyRecovery) : DummyRecovery :=
  mkDummyRecovery (initialized_ self) (command_ self) t.

(** The constructor: [initialized_(false)], the other fields
    value-initialised. *)
Definition DummyRecovery_new : DummyRecovery := mkDummyRecovery false "" 0.

(** [DummyRecovery::onRun]; [now] is what [system_clock::now()] reads. *)
Definition onRun (goal_command : string) (now : time_point)
    (self : DummyRecovery) : Status * DummyRecovery :=
  let self := set_initialized_ false self in
  let self := set_command_ goal_command self in
  let self := set_start_time_ now self in
  if String.eqb (command_ self) "Testing success"
     || String.eqb (command_ self) "Testing failure on run"
  then (SUCCEEDED, set_initialized_ true self)
  else (FAILED, self).

(** [DummyRecovery::onCycleUpdate]; [now] is what [system_clock::now()]
    reads after the 2 ms sleep. *)
Definition onCycleUpdate (now : time_point) (self : DummyRecovery) : Status :=
  if negb (String.eqb (command_ self) "Testing success")
     || negb (initialized_ self)
  then FAILED
  else
    let current_time := now in
    let motion_duration := seconds 5 in
    if motion_duration <=? current_time - start_time_ self then SUCCEEDED
    else RUNNING.

(** A client goal handle ([ClientGoalHandle::SharedPtr] when not null). *)
Record ClientGoalHandle : Type := mkClientGoalHandle { goal_id : Z }.

(** [class RecoveryTest]: the fields the tests touch. *)
Record Fixture : Type := mkFixture {
  recovery_ : DummyRecovery;
  goal_handle_ : option ClientGoalHandle
}.

(** [SetUp]. *)
Definition SetUp : Fixture := mkFixture DummyRecovery_new None.

(** What the client library answers during one [sendCommand]. *)
Record SendAnswers : Type := mkSendAnswers {
  server_ready : bool;                     (* client_->wait_for_action_server(4s) *)
  goal_spin : FutureReturnCode;            (* spin_until_future_complete(node_, future_goal) *)
  future_goal : option ClientGoalHandle    (* future_goal.get() *)
}.

(** [RecoveryTest::sendCommand]. *)
Definition sendCommand (answers : SendAnswers) (command : string)
    (self : Fixture) : bool * Fixture :=
  if negb (server_ready answers) then (false, self)
  else if negb (FutureReturnCode_eqb (goal_spin answers) SUCCESS) then (false, self)
  else
    let self := mkFixture (recovery_ self) (future_goal answers) in
    match goal_handle_ self with
    | None => (false, self)
    | Some _ => (true, self)
    end.

(** The [do ... while (frc != SUCCESS)] loop of [getResult]: [spins k] is
    what the [k]-th call of [spin_until_future_complete] returns; at most
    [fuel] iterations are followed. *)
Fixpoint getResult_loop (fuel : nat) (spins : nat -> FutureReturnCode)
    (k : nat) : Result unit :=
  match fuel with
  | O => Starved
  | S fuel' =>
      let frc := spins k in
      if negb (FutureReturnCode_eqb frc SUCCESS)
      then getResult_loop fuel' spins (S k)
      else Ok tt
  end.

(** [RecoveryTest::getResult]; [delivered] is the code of the wrapped result
    the future holds once complete.  Calling it with a null [goal_handle_]
    dereferences a null pointer. *)
Definition getResult (fuel : nat) (spins : nat -> FutureReturnCode)
    (delivered : ResultCode) (self : Fixture) : Result ResultCode :=
  match goal_handle_ self with
  | None => Undefined
  | Some _ =>
      _ <- getResult_loop fuel spins 0 ;;
      Ok delivered
  end.

(** [RecoveryTest::getOutcome]. *)
Definition getOutcome (fuel : nat) (spins : nat -> FutureReturnCode)
    (delivered : ResultCode) (self : Fixture) : Result Status :=
  code <- getResult fuel spins delivered self ;;
  if ResultCode_eqb code RC_SUCCEEDED then Ok SUCCEEDED else Ok FAILED.

(** One scheduler tick as the behaviour meets it: whether cancellation was
    requested, and the clock reading of this tick's [onCycleUpdate]. *)
Record Tick : Type := mkTick {
  cancel_requested : bool;
  clock : time_point
}.

(** Modelled from the spec: the cyclic phase of the supervisor
    ([Recovery<ActionT>::execute] of [nav2_recoveries/recovery.hpp], not
    among the sources).  Every tick checks the cancellation flag before the
    step, a step that returns RUNNING continues, SUCCEEDED and FAILED are
    terminal, nothing is retried.  The terminal status is given as the result
    code delivered to the client (FAILED as the aborted goal). *)
Fixpoint cyclic_phase (ticks : list Tick) (self : DummyRecovery)
  : Result ResultCode :=
  match ticks with
  | [] => Starved
  | t :: rest =>
      if cancel_requested t then Ok RC_CANCELED
      else
        match onCycleUpdate (clock t) self with
        | SUCCEEDED => Ok RC_SUCCEEDED
        | FAILED => Ok RC_ABORTED
        | RUNNING => cyclic_phase rest self
        end
  end.

(** Modelled from the spec: the supervisor running one accepted goal
    ([Recovery<ActionT>::execute], not among the sources): initialize, then
    the cyclic phase.  The scenarios of the spec's section 8 say what the
    results of this behaviour's [onRun] mean to it: an initialize that
    "succeeds" is followed by the cyclic steps, an initialize that "itself
    returns FAILED" is terminal and "no cyclic phase ever runs".  The tests
    of the source read [onRun]'s results the same way:
    [testingFailureOnRun] expects FAILED for a goal whose [onRun] returned
    SUCCEEDED, so SUCCEEDED from [onRun] is the continuing outcome, which the
    diagram of section 4.1 labels RUNNING. *)
Definition execute (goal_command : string) (now : time_point)
    (ticks : list Tick) (self : DummyRecovery)
  : Result ResultCode * DummyRecovery :=
  let '(status, self) := onRun goal_command now self in
  match status with
  | FAILED => (Ok RC_ABORTED, self)
  | SUCCEEDED | RUNNING => (cyclic_phase ticks self, self)
  end.

(** What one [sendCommand] / [getOutcome] pair of a test meets. *)
Record Exchange : Type := mkExchange {
  answers : SendAnswers;
  run_clock : time_point;            (* the clock reading of onRun *)
  ticks : list Tick;
  result_spins : nat -> FutureReturnCode
}.

(** Modelled from the spec: the data flow of section 2 around the two lines
    of a test, [ASSERT_TRUE(sendCommand(command)); ... getOutcome() ...]: the
    accepted goal is run by the supervisor ([execute]) on the fixture's
    behaviour, and the terminal result is what the result future delivers.
    The action transport that carries goal and result is not among the
    sources.  A failed assertion leaves the test ([Thrown]). *)
Definition sendCommand_getOutcome (fuel : nat) (xch : Exchange)
    (command : string) (self : Fixture) : Result (Status * Fixture) :=
  let '(sent, self) := sendCommand (answers xch) command self in
  if negb sent then Thrown "ASSERT_TRUE(sendCommand(command))"
  else
    let '(served, recovery) :=
      execute command (run_clock xch) (ticks xch) (recovery_ self) in
    let self := mkFixture recovery (goal_handle_ self) in
    delivered <- served ;;
    outcome <- getOutcome fuel (result_spins xch) delivered self ;;
    Ok (outcome, self).

(** [TEST_F(RecoveryTest, testingSequentialFailures)]: the two outcomes its
    [EXPECT_EQ]s look at. *)
Definition testingSequentialFailures (fuel : nat) (first second : Exchange)
  : Result (Status * Status) :=
  let self := SetUp in
  ' (outcome1, self) <-
      sendCommand_getOutcome fuel first "Testing failure on init" self ;;
  ' (outcome2, self) <-
      sendCommand_getOutcome fuel second "Testing failure on run" self ;;
  Ok (outcome1, outcome2).

End RecoveryTest.

(** ** Planner tester: set-up and the default test *)

Module PlannerTesterSetup.
Import FP Rclcpp.

Section Setup.

(** [nav_msgs::msg::OccupancyGrid] and [nav2_util::TestCostmap], with the one
    test costmap the constructor names. *)
Variable OccupancyGrid : Type.
Variable TestCostmap : Type.
Variable open_space : TestCostmap.

(** What the tester's [costmap_] was made from: [set_test_costmap] or
    [set_static_map]. *)
Inductive Costmap : Type :=
| of_test_costmap (testCostmapType : TestCostmap)
| of_static_map (map : OccupancyGrid).

(** The fields the set-up functions write. *)
Record Fields : Type := mkFields {
  map_ : option OccupancyGrid;        (* null or the loaded map *)
  costmap_ : option Costmap;          (* null or the costmap held *)
  map_set_ : bool;
  costmap_set_ : bool;
  using_fake_costmap_ : bool;
  costmap_server_running_ : bool
}.

(** [PlannerTester::setCostmap]; [*map_] on a null [map_] is undefined. *)
Definition setCostmap (self : Fields) : Result unit * Fields :=
  if negb (map_set_ self) then (Ok tt, self)
  else
    match map_ self with
    | None => (Undefined, self)
    | Some map =>
        (Ok tt,
         mkFields (map_ self) (Some (of_static_map map)) (map_set_ self)
           true false (costmap_server_running_ self))
    end.

(** [PlannerTester::loadDefaultMap]: [TEST_MAP] is what [getenv] finds;
    [loadMapFromFile] gives, for a path, the map the loader returns ([inl])
    or the message of the exception it throws ([inr]), which the [catch]
    block throws again.  An exception leaves with the fields as they are at
    that point. *)
Definition loadDefaultMap (TEST_MAP : option string)
    (loadMapFromFile : string -> OccupancyGrid + string) (self : Fields)
  : Result unit * Fields :=
  match TEST_MAP with
  | None =>
      (Thrown "Path to map image file has not been specified in environment variable `TEST_MAP`."%string,
       self)
  | Some file_path =>
      match loadMapFromFile file_path with
      | inr what => (Thrown what, self)
      | inl map =>
          let self :=
            mkFields (Some map) (costmap_ self) true false false
              (costmap_server_running_ self) in
          setCostmap self
      end
  end.

(** [PlannerTester::loadSimpleCostmap]. *)
Definition loadSimpleCostmap (testCostmapType : TestCostmap) (self : Fields)
  : Fields :=
  mkFields (map_ self) (Some (of_test_costmap testCostmapType)) (map_set_ self)
    true true (costmap_server_running_ self).

(** [PlannerTester::startCostmapServer]. *)
Definition startCostmapServer (self : Fields) : Fields :=
  if negb (costmap_set_ self) then self
  else
    mkFields (map_ self) (costmap_ self) (map_set_ self) (costmap_set_ self)
      (using_fake_costmap_ self) true.

(** The constructor: the member initialisers, then
    [loadSimpleCostmap(TestCostmap::open_space)] and [startCostmapServer()].
    The action client, the publishers, the robot pose it publishes and the
    spin thread it also starts hold none of these fields. *)
Definition PlannerTester_new : Fields :=
  let self := mkFields None None false false true false in
  let self := loadSimpleCostmap open_space self in
  startCostmapServer self.

(** The two public set-up calls. *)
Inductive SetupCall : Type :=
| call_loadDefaultMap (TEST_MAP : option string)
    (loadMapFromFile : string -> OccupancyGrid + string)
| call_loadSimpleCostmap (testCostmapType : TestCostmap).

Definition setup_call (c : SetupCall) (self : Fields) : Result unit * Fields :=
  match c with
  | call_loadDefaultMap TEST_MAP loadMapFromFile =>
      loadDefaultMap TEST_MAP loadMapFromFile self
  | call_loadSimpleCostmap t => (Ok tt, loadSimpleCostmap t self)
  end.

(** A test body's set-up calls one after the other, an exception of one
    being caught before the next; the outcomes and the fields at the end. *)
Fixpoint setup_calls (cs : list SetupCall) (self : Fields)
  : list (Result unit) * Fields :=
  match cs with
  | [] => ([], self)
  | c :: rest =>
      let '(outcome, self) := setup_call c self in
      let '(outcomes, self) := setup_calls rest self in
      (outcome :: outcomes, self)
  end.

(** The two flags the planner tests read. *)
Definition tester_of (self : Fields) : PlannerTester.Tester :=
  PlannerTester.mkTester (costmap_set_ self) (using_fake_costmap_ self).

End Setup.

Arguments of_test_costmap {OccupancyGrid TestCostmap} testCostmapType.
Arguments of_static_map {OccupancyGrid TestCostmap} map.
Arguments mkFields {OccupancyGrid TestCostmap}.
Arguments map_ {OccupancyGrid TestCostmap} f.
Arguments costmap_ {OccupancyGrid TestCostmap} f.
Arguments map_set_ {OccupancyGrid TestCostmap} f.
Arguments costmap_set_ {OccupancyGrid TestCostmap} f.
Arguments using_fake_costmap_ {OccupancyGrid TestCostmap} f.
Arguments costmap_server_running_ {OccupancyGrid TestCostmap} f.
Arguments setCostmap {OccupancyGrid TestCostmap} self.
Arguments loadDefaultMap {OccupancyGrid TestCostmap} TEST_MAP loadMapFromFile self.
Arguments loadSimpleCostmap {OccupancyGrid TestCostmap} testCostmapType self.
Arguments startCostmapServer {OccupancyGrid TestCostmap} self.
Arguments PlannerTester_new {OccupancyGrid TestCostmap} open_space.
Arguments call_loadDefaultMap {OccupancyGrid TestCostmap} TEST_MAP loadMapFromFile.
Arguments call_loadSimpleCostmap {OccupancyGrid TestCostmap} testCostmapType.
Arguments setup_call {OccupancyGrid TestCostmap} c self.
Arguments setup_calls {OccupancyGrid TestCostmap} cs self.
Arguments tester_of {OccupancyGrid TestCostmap} self.

Section DefaultTest.

Variable is_free : Z -> Z -> bool.

(** [PlannerTester::defaultPlannerTest]; the request is answered by the
    first of the environment's responses.  The source leaves the tolerance
    parameter unnamed. *)
Definition defaultPlannerTest (self : PlannerTester.Tester)
    (env : PlannerTester.Environment)
    (path : PlannerTester.ComputePathToPoseResult)
    (deviation_tolerance : double)
  : Result (bool * PlannerTester.ComputePathToPoseResult) :=
  if negb (PlannerTester.costmap_set_ self) then Ok (false, path)
  else
    _ <- PlannerTester.waitForPlanner env ;;
    let '(robot_position, goal) :=
      if PlannerTester.using_fake_costmap_ self then
        (PlannerTester.mkPoint (double_of_Z 1) (double_of_Z 1),
         PlannerTester.mkPoseStamped (PlannerTester.mkPose
           (PlannerTester.mkPoint (double_of_Z 8) (double_of_Z 8))))
      else
        (PlannerTester.mkPoint (double_of_Z 390) (double_of_Z 10),
         PlannerTester.mkPoseStamped (PlannerTester.mkPose
           (PlannerTester.mkPoint (double_of_Z 10) (double_of_Z 390)))) in
    match PlannerTester.responses env with
    | [] => Starved
    | response :: _ =>
        PlannerTester.plannerTest is_free response robot_position goal path
    end.

End DefaultTest.

End PlannerTesterSetup.

(** ** Recovery test: the single-command test bodies *)

Module RecoveryTestCases.
Import Rclcpp RecoveryTest.
Local Open Scope string_scope.

(** [==] on [Status], as [EXPECT_EQ] compares. *)
Definition Status_eqb (a b : Status) : bool :=
  match a, b with
  | SUCCEEDED, SUCCEEDED | FAILED, FAILED | RUNNING, RUNNING => true
  | _, _ => false
  end.

(** [TEST_F(RecoveryTest, testingSuccess)], [testingFailureOnRun] and
    [testingFailureOnInit]: one command on the fixture [SetUp] makes, and
    whether the [EXPECT_EQ] on the outcome holds. *)
Definition testingSuccess (fuel : nat) (xch : Exchange) : Result bool :=
  ' (outcome, _) <- sendCommand_getOutcome fuel xch "Testing success" SetUp ;;
  Ok (Status_eqb outcome SUCCEEDED).

Definition testingFailureOnRun (fuel : nat) (xch : Exchange) : Result bool :=
  ' (outcome, _) <- sendCommand_getOutcome fuel xch "Testing failure on run" SetUp ;;
  Ok (Status_eqb outcome FAILED).

Definition testingFailureOnInit (fuel : nat) (xch : Exchange) : Result bool :=
  ' (outcome, _) <- sendCommand_getOutcome fuel xch "Testing failure on init" SetUp ;;
  Ok (Status_eqb outcome FAILED).

End RecoveryTestCases.

(** * Properties of the planner tester *)

Module PlannerTesterProofs.
Import FP Rclcpp PlannerTester.

(** The integer [std::round] of a coordinate denotes. *)
Definition rounded (v : double) : option Z := trunc_Z (std_round v).

(** Rounding is to nearest, halfway cases away from zero: 2.5, 1.5, 0.4375,
    -0.25, -0.5, -1.0 and -2.5; NaN has no rounded integer. *)
Example rounded_samples :
  rounded (binary_normalize 53 1024 5 (-1) false) = Some 3 /\
  rounded (binary_normalize 53 1024 3 (-1) false) = Some 2 /\
  rounded (binary_normalize 53 1024 7 (-4) false) = Some 0 /\
  rounded (binary_normalize 53 1024 (-1) (-2) false) = Some 0 /\
  rounded (binary_normalize 53 1024 (-1) (-1) false) = Some (-1) /\
  rounded (double_of_Z (-1)) = Some (-1) /\
  rounded (binary_normalize 53 1024 (-5) (-1) false) = Some (-3) /\
  rounded S754_nan = None.
Proof. repeat split; vm_compute; reflexivity. Qed.

(** The conversion to [unsigned int] of 8.0, of 4294967295.0, of
    4294967296.0 and of -1.0. *)
Example static_cast_unsigned_int_samples :
  static_cast_unsigned_int (double_of_Z 8) = Ok 8 /\
  static_cast_unsigned_int (double_of_Z 4294967295) = Ok 4294967295 /\
  static_cast_unsigned_int (double_of_Z 4294967296) = Undefined /\
  static_cast_unsigned_int (double_of_Z (-1)) = Undefined.
Proof. repeat split; vm_compute; reflexivity. Qed.

(** The pose's rounded coordinates address a cell, and the costmap marks
    that cell free. *)
Definition on_free_cell (is_free : Z -> Z -> bool) (p : Pose) : Prop :=
  exists rx ry,
    rounded (x (position p)) = Some rx /\ rounded (y (position p)) = Some ry /\
    0 <= rx <= UINT_MAX /\ 0 <= ry <= UINT_MAX /\
    is_free rx ry = true.

(** The rounded coordinates address a cell the costmap marks occupied. *)
Definition on_occupied_cell (is_free : Z -> Z -> bool) (p : Pose) : Prop :=
  exists rx ry,
    rounded (x (position p)) = Some rx /\ rounded (y (position p)) = Some ry /\
    0 <= rx <= UINT_MAX /\ 0 <= ry <= UINT_MAX /\
    is_free rx ry = false.

Lemma static_cast_unsigned_int_Ok (v : double) (z : Z) :
  static_cast_unsigned_int v = Ok z <->
  trunc_Z v = Some z /\ 0 <= z <= UINT_MAX.
Proof.
  unfold static_cast_unsigned_int.
  destruct (trunc_Z v) as [t|]; [|split; [discriminate | intros [H _]; discriminate]].
  destruct (Z.leb_spec 0 t) as [Hlo|Hlo];
    destruct (Z.leb_spec t UINT_MAX) as [Hhi|Hhi]; cbn;
    unfold UINT_MAX in *;
    (split; [intros E; inversion E; subst; (split; [reflexivity | lia])
            | intros [E Hr]; inversion E; subst; try reflexivity; exfalso; lia]).
Qed.

Lemma static_cast_unsigned_int_negative (v : double) (z : Z) :
  trunc_Z v = Some z -> z < 0 -> static_cast_unsigned_int v = Undefined.
Proof.
  intros Hv Hz. unfold static_cast_unsigned_int. rewrite Hv.
  replace (0 <=? z) with false by (symmetry; apply Z.leb_gt; exact Hz).
  reflexivity.
Qed.

Lemma static_cast_unsigned_int_cases (v : double) :
  (exists z, static_cast_unsigned_int v = Ok z) \/
  static_cast_unsigned_int v = Undefined.
Proof.
  unfold static_cast_unsigned_int.
  destruct (trunc_Z v) as [t|]; [|now right].
  destruct ((0 <=? t) && (t <=? UINT_MAX)); [left; now exists t | now right].
Qed.

Lemma cell_of_Ok (p : Pose) (mx my : Z) :
  cell_of p = Ok (mx, my) <->
  rounded (x (position p)) = Some mx /\ rounded (y (position p)) = Some my /\
  0 <= mx <= UINT_MAX /\ 0 <= my <= UINT_MAX.
Proof.
  unfold cell_of, rounded. split.
  - destruct (static_cast_unsigned_int (std_round (x (position p)))) as [a| | |] eqn:Hx;
      cbn; try discriminate.
    destruct (static_cast_unsigned_int (std_round (y (position p)))) as [b| | |] eqn:Hy;
      cbn; try discriminate.
    intros H; inversion H; subst.
    apply static_cast_unsigned_int_Ok in Hx, Hy. tauto.
  - intros (Hx & Hy & Rx & Ry).
    assert (Cx : static_cast_unsigned_int (std_round (x (position p))) = Ok mx)
      by (apply static_cast_unsigned_int_Ok; tauto).
    assert (Cy : static_cast_unsigned_int (std_round (y (position p))) = Ok my)
      by (apply static_cast_unsigned_int_Ok; tauto).
    rewrite Cx. cbn. rewrite Cy. reflexivity.
Qed.

Section Collision.

Variable is_free : Z -> Z -> bool.

Lemma isCollisionFree_poses_free_step (p : Pose) (rest : list Pose) :
  on_free_cell is_free p ->
  isCollisionFree_poses is_free (p :: rest) = isCollisionFree_poses is_free rest.
Proof.
  intros (rx & ry & Hx & Hy & Rx & Ry & Hfree).
  assert (C : cell_of p = Ok (rx, ry)) by (apply cell_of_Ok; tauto).
  cbn. rewrite C. cbn. rewrite Hfree. reflexivity.
Qed.

Lemma isCollisionFree_poses_occupied_step (p : Pose) (rest : list Pose) :
  on_occupied_cell is_free p ->
  isCollisionFree_poses is_free (p :: rest) = Ok false.
Proof.
  intros (rx & ry & Hx & Hy & Rx & Ry & Hocc).
  assert (C : cell_of p = Ok (rx, ry)) by (apply cell_of_Ok; tauto).
  cbn. rewrite C. cbn. rewrite Hocc. reflexivity.
Qed.

Lemma isCollisionFree_poses_true (ps : list Pose) :
  isCollisionFree_poses is_free ps = Ok true <-> Forall (on_free_cell is_free) ps.
Proof.
  induction ps as [|p rest IH].
  - split; [constructor | reflexivity].
  - split.
    + cbn. destruct (cell_of p) as [[mx my]| | |] eqn:C; cbn; try discriminate.
      destruct (is_free mx my) eqn:Hfree; cbn; [|discriminate].
      intros Hrest. constructor; [|apply IH; exact Hrest].
      apply cell_of_Ok in C. exists mx, my. tauto.
    + intros Hall. inversion Hall as [|? ? Hp Hrest]; subst.
      rewrite (isCollisionFree_poses_free_step _ _ Hp). apply IH; exact Hrest.
Qed.

Lemma isCollisionFree_poses_first_occupied (before after : list Pose) (p : Pose) :
  Forall (on_free_cell is_free) before ->
  on_occupied_cell is_free p ->
  isCollisionFree_poses is_free (before ++ p :: after) = Ok false.
Proof.
  induction before as [|q before IH]; intros Hall Hp.
  - apply isCollisionFree_poses_occupied_step; exact Hp.
  - inversion Hall as [|? ? Hq Hbefore]; subst.
    rewrite <- app_comm_cons, (isCollisionFree_poses_free_step _ _ Hq).
    apply IH; assumption.
Qed.

End Collision.

(** C2. [isCollisionFree] returns true exactly when every pose of the path
    rounds to a cell of the costmap that the free predicate accepts; it
    returns false at the first pose whose cell is not free, whatever follows
    that pose; and a path with no poses is collision-free. *)
Theorem isCollisionFree_iff_every_cell_free
    (is_free : Z -> Z -> bool) (path : ComputePathToPoseResult) :
  (isCollisionFree is_free path = Ok true <->
   Forall (on_free_cell is_free) (poses path)) /\
  (forall before p after,
     poses path = before ++ p :: after ->
     Forall (on_free_cell is_free) before ->
     on_occupied_cell is_free p ->
     isCollisionFree is_free path = Ok false) /\
  isCollisionFree is_free (mkPath []) = Ok true.
Proof.
  unfold isCollisionFree. split; [|split].
  - apply isCollisionFree_poses_true.
  - intros before p after Hsplit Hbefore Hp. rewrite Hsplit.
    apply isCollisionFree_poses_first_occupied; assumption.
  - reflexivity.
Qed.

(** ** Endpoint check *)

(** The comparison the five-argument overload makes between the path's two
    ends and the requested start and goal. *)
Definition endpoints_equal (robot_position : Point)
    (goal : ComputePathToPoseCommand) (path_start path_end : Pose) : bool :=
  fp_eq (x (position path_start)) (x robot_position) &&
  fp_eq (y (position path_start)) (y robot_position) &&
  fp_eq (x (position path_end)) (x (position (pose goal))) &&
  fp_eq (y (position path_end)) (y (position (pose goal))).

Lemma vector_at_nil {A : Type} (i : Z) : vector_at (@nil A) i = None.
Proof.
  unfold vector_at. cbn [length Z.of_nat].
  destruct (Z.leb_spec 0 i); destruct (Z.ltb_spec i 0); cbn; try reflexivity; lia.
Qed.

Lemma vector_at_front {A : Type} (a : A) (l : list A) :
  vector_at (a :: l) 0 = Some a.
Proof. reflexivity. Qed.

Lemma nth_error_last {A : Type} (l : list A) (a d : A) :
  nth_error (a :: l) (length l) = Some (last (a :: l) d).
Proof.
  revert a. induction l as [|b l IH]; intros a; [reflexivity|].
  change (nth_error (a :: b :: l) (length (b :: l)))
    with (nth_error (b :: l) (length l)).
  rewrite (IH b). reflexivity.
Qed.

Lemma vector_at_back {A : Type} (a : A) (l : list A) (d : A) :
  vector_at (a :: l) (Z.of_nat (length (a :: l)) - 1) = Some (last (a :: l) d).
Proof.
  unfold vector_at.
  replace (Z.of_nat (length (a :: l)) - 1) with (Z.of_nat (length l))
    by (cbn [length]; lia).
  rewrite Nat2Z.id.
  destruct (Z.leb_spec 0 (Z.of_nat (length l))); [|lia].
  destruct (Z.ltb_spec (Z.of_nat (length l)) (Z.of_nat (length (a :: l))));
    [|cbn [length] in *; lia].
  cbn [andb]. apply nth_error_last.
Qed.

Lemma isWithinTolerance5_nonempty (robot_position : Point)
    (goal : ComputePathToPoseCommand) (first : Pose) (rest : list Pose)
    (deviationTolerance : double) (reference_path : ComputePathToPoseResult) :
  isWithinTolerance5 robot_position goal (mkPath (first :: rest))
    deviationTolerance reference_path
  = Ok (endpoints_equal robot_position goal first (last (first :: rest) first)).
Proof.
  unfold isWithinTolerance5. cbn [poses].
  rewrite vector_at_front, (vector_at_back first rest first).
  unfold endpoints_equal.
  destruct (_ && _); reflexivity.
Qed.

Lemma isWithinTolerance5_empty (robot_position : Point)
    (goal : ComputePathToPoseCommand)
    (deviationTolerance : double) (reference_path : ComputePathToPoseResult) :
  isWithinTolerance5 robot_position goal (mkPath [])
    deviationTolerance reference_path = Undefined.
Proof. reflexivity. Qed.

Lemma isWithinTolerance5_parameters_unused (robot_position : Point)
    (goal : ComputePathToPoseCommand) (path : ComputePathToPoseResult)
    (tolerance tolerance' : double) (reference reference' : ComputePathToPoseResult) :
  isWithinTolerance5 robot_position goal path tolerance reference
  = isWithinTolerance5 robot_position goal path tolerance' reference'.
Proof. reflexivity. Qed.

(** Values for the examples: 1.0, 8.0, 8.5 and -1.0 as doubles. *)
Definition d_1 : double := double_of_Z 1.
Definition d_8 : double := double_of_Z 8.
Definition d_8_5 : double := binary_normalize 53 1024 17 (-1) false.
Definition d_minus_1 : double := double_of_Z (-1).
Definition d_0 : double := S754_zero false.
Definition pose_at (px py : double) : Pose := mkPose (mkPoint px py).

(** C3, as the code has it.  The verdict of the five-argument
    [isWithinTolerance] is the same for every [deviationTolerance] and every
    [reference_path]; on a path with at least one pose it is true exactly
    when the first pose equals the robot start position and the last pose
    equals the goal position under [==] on doubles. *)
Theorem isWithinTolerance5_is_exact_endpoint_equality
    (robot_position : Point) (goal : ComputePathToPoseCommand)
    (first : Pose) (rest : list Pose)
    (tolerance tolerance' : double)
    (reference reference' : ComputePathToPoseResult) :
  isWithinTolerance5 robot_position goal (mkPath (first :: rest))
    tolerance reference
  = Ok (endpoints_equal robot_position goal first (last (first :: rest) first)) /\
  isWithinTolerance5 robot_position goal (mkPath (first :: rest))
    tolerance' reference'
  = isWithinTolerance5 robot_position goal (mkPath (first :: rest))
    tolerance reference /\
  isWithinTolerance robot_position goal (mkPath (first :: rest))
  = isWithinTolerance5 robot_position goal (mkPath (first :: rest))
    tolerance reference.
Proof.
  split; [apply isWithinTolerance5_nonempty|].
  split; apply isWithinTolerance5_parameters_unused.
Qed.

(** C3, against the claim.  A path from (1, 1) that ends at (8.5, 8) for the
    goal (8, 8) deviates by 0.5, within a tolerance of 1.0; the verdict with
    that tolerance is false, as it is with tolerance 0; and no two choices of
    tolerance and reference path ever give different verdicts. *)
Lemma isWithinTolerance5_tolerance_changes_nothing :
  SFleb (SFabs (SFsub 53 1024 d_8_5 d_8)) d_1 = true /\
  isWithinTolerance5 (mkPoint d_1 d_1) (mkPoseStamped (pose_at d_8 d_8))
    (mkPath [pose_at d_1 d_1; pose_at d_8_5 d_8]) d_1 (mkPath []) = Ok false /\
  isWithinTolerance5 (mkPoint d_1 d_1) (mkPoseStamped (pose_at d_8 d_8))
    (mkPath [pose_at d_1 d_1; pose_at d_8_5 d_8]) d_0 (mkPath []) = Ok false /\
  ~ (exists robot_position goal path t1 r1 t2 r2,
       isWithinTolerance5 robot_position goal path t1 r1
       <> isWithinTolerance5 robot_position goal path t2 r2).
Proof.
  repeat split; try (vm_compute; reflexivity).
  intros (rp & g & p & t1 & r1 & t2 & r2 & Hdiff).
  apply Hdiff, isWithinTolerance5_parameters_unused.
Qed.

(** C9. On a path with no poses both element reads of [isWithinTolerance],
    [poses[0]] and [poses.end()[-1]], are outside the sequence, so the call is
    undefined; and [plannerTest] makes that call on a SUCCEEDED result that
    carries such a path, the empty path having passed [isCollisionFree]. *)
Theorem isWithinTolerance_reads_outside_empty_path
    (is_free : Z -> Z -> bool)
    (robot_position : Point) (goal : ComputePathToPoseCommand)
    (path caller_path : ComputePathToPoseResult)
    (tolerance : double) (reference : ComputePathToPoseResult)
    (Hempty : poses path = []) :
  vector_at (poses path) 0 = None /\
  vector_at (poses path) (Z.of_nat (length (poses path)) - 1) = None /\
  isWithinTolerance5 robot_position goal path tolerance reference = Undefined /\
  isWithinTolerance robot_position goal path = Undefined /\
  isCollisionFree is_free path = Ok true /\
  plannerTest is_free (mkPlannerResponse true true true RC_SUCCEEDED path)
    robot_position goal caller_path = Undefined.
Proof.
  destruct path as [ps]. cbn in Hempty. subst ps.
  repeat split; reflexivity.
Qed.

(** C9 at the empty path, on a costmap that is free everywhere. *)
Lemma isWithinTolerance_reads_outside_empty_path_witness :
  poses (mkPath []) = [] /\
  plannerTest (fun _ _ => true)
    (mkPlannerResponse true true true RC_SUCCEEDED (mkPath []))
    (mkPoint d_1 d_1) (mkPoseStamped (pose_at d_8 d_8)) (mkPath [])
  = Undefined.
Proof.
  split; [reflexivity|].
  exact (proj2 (proj2 (proj2 (proj2 (proj2
    (isWithinTolerance_reads_outside_empty_path (fun _ _ => true)
       (mkPoint d_1 d_1) (mkPoseStamped (pose_at d_8 d_8))
       (mkPath []) (mkPath []) d_0 (mkPath []) eq_refl)))))).
Defined.

(** ** Negative coordinates *)

Lemma cell_of_negative (p : Pose) (r : Z) :
  r < 0 ->
  rounded (x (position p)) = Some r \/ rounded (y (position p)) = Some r ->
  cell_of p = Undefined.
Proof.
  intros Hneg [Hx|Hy]; unfold cell_of, rounded in *.
  - rewrite (static_cast_unsigned_int_negative _ _ Hx Hneg). reflexivity.
  - rewrite (static_cast_unsigned_int_negative _ _ Hy Hneg).
    destruct (static_cast_unsigned_int_cases (std_round (x (position p))))
      as [[z Hz]|Hz]; rewrite Hz; reflexivity.
Qed.

(** C10, as the code has it.  [isCollisionFree] hands each coordinate to
    [static_cast<unsigned int>(std::round(...))] with no sign or range check
    of its own, so a pose with a coordinate that rounds below zero is not
    rejected as outside the grid; that conversion is outside the range of
    [unsigned int], and reaching it (every earlier pose being on a free cell)
    leaves the call undefined.  A coordinate that rounds to zero, negative
    values above -0.5 included, is looked up at index 0. *)
Theorem isCollisionFree_negative_coordinate_unchecked
    (is_free : Z -> Z -> bool) (before after : list Pose) (p : Pose) (r : Z)
    (Hbefore : Forall (on_free_cell is_free) before)
    (Hneg : r < 0)
    (Hcoord : rounded (x (position p)) = Some r \/
              rounded (y (position p)) = Some r) :
  cell_of p = Undefined /\
  isCollisionFree is_free (mkPath (before ++ p :: after)) = Undefined /\
  (forall v : double,
     rounded v = Some 0 -> static_cast_unsigned_int (std_round v) = Ok 0).
Proof.
  assert (C : cell_of p = Undefined) by (eapply cell_of_negative; eassumption).
  split; [exact C|]. split.
  - unfold isCollisionFree. cbn [poses].
    induction Hbefore as [|q before Hq _ IH].
    + cbn. rewrite C. reflexivity.
    + rewrite <- app_comm_cons, (isCollisionFree_poses_free_step _ _ _ Hq).
      exact IH.
  - intros v Hv. apply static_cast_unsigned_int_Ok.
    split; [exact Hv | unfold UINT_MAX; lia].
Qed.

(** C10 at the path (1, 1), (8, -1), (8, 8) on a costmap that is free
    everywhere. *)
Lemma isCollisionFree_negative_coordinate_unchecked_witness :
  isCollisionFree (fun _ _ => true)
    (mkPath ([pose_at d_1 d_1] ++ pose_at d_8 d_minus_1 :: [pose_at d_8 d_8]))
  = Undefined.
Proof.
  refine (proj1 (proj2
    (isCollisionFree_negative_coordinate_unchecked (fun _ _ => true)
       [pose_at d_1 d_1] [pose_at d_8 d_8] (pose_at d_8 d_minus_1) (-1)
       _ _ _))).
  - constructor; [|constructor].
    exists 1, 1. vm_compute. intuition congruence.
  - lia.
  - right. vm_compute. reflexivity.
Defined.

(** C10, against the claim.  -1.0 rounds to -1, whose residue modulo 2^32
    is 4294967295; the check of the one-pose path (-1.0, 0.0) is undefined on
    a costmap that is free everywhere and on one that is occupied everywhere,
    rather than the costmap's answer for the cell (4294967295, 0). *)
Lemma isCollisionFree_minus_one_not_looked_up :
  rounded d_minus_1 = Some (-1) /\
  (-1) mod 2 ^ 32 = 4294967295 /\
  isCollisionFree (fun _ _ => true) (mkPath [pose_at d_minus_1 d_0])
  = Undefined /\
  isCollisionFree (fun _ _ => false) (mkPath [pose_at d_minus_1 d_0])
  = Undefined /\
  isCollisionFree (fun _ _ => true) (mkPath [pose_at d_minus_1 d_0])
  <> Ok ((fun _ _ : Z => true) 4294967295 0).
Proof.
  repeat split; try (vm_compute; reflexivity).
  vm_compute. discriminate.
Qed.

(** ** The random batch *)

Section RandomBatch.

Variable is_free : Z -> Z -> bool.

Lemma random_tests_loop_bounds (n : nat) :
  forall ds rs num_fail path result,
    0 <= num_fail ->
    num_fail + Z.of_nat n < 2 ^ 32 ->
    random_tests_loop is_free n ds rs num_fail path = Ok result ->
    num_fail <= result <= num_fail + Z.of_nat n.
Proof.
  induction n as [|n IH]; intros ds rs num_fail path result Hlo Hhi Hrun.
  - cbn in Hrun. inversion Hrun; subst. lia.
  - cbn [random_tests_loop] in Hrun.
    destruct (generate_random is_free ds) as [[v1 ds1]| | |]; cbn in Hrun;
      try discriminate.
    destruct (generate_random is_free ds1) as [[v2 ds2]| | |]; cbn in Hrun;
      try discriminate.
    destruct rs as [|response rs]; [discriminate|].
    destruct (plannerTest is_free response _ _ path) as [[passed path']| | |];
      cbn in Hrun; try discriminate.
    destruct passed; cbn [negb] in Hrun.
    + apply IH in Hrun; lia.
    + rewrite Z.mod_small in Hrun by lia. apply IH in Hrun; lia.
Qed.

(** The quotient of the two unsigned counts is 1 when every trial failed and
    0 otherwise. *)
Lemma unsigned_quotient (num_fail number_tests : Z) :
  0 <= num_fail <= number_tests -> 0 < number_tests ->
  num_fail / number_tests = if num_fail =? number_tests then 1 else 0.
Proof.
  intros Hrange Hpos. destruct (Z.eqb_spec num_fail number_tests) as [->|Hne].
  - apply Z.div_same. lia.
  - apply Z.div_small. lia.
Qed.

(** What the batch's verdict is made of: with the costmap set and not a fake
    one, a batch of [0 < number_tests < 2^32] trials that returns compares
    the integer quotient, 1 when all trials failed and 0 otherwise, with the
    acceptable ratio. *)
Lemma defaultPlannerRandomTests_compares_integer_quotient
    (env : Environment) (number_tests : Z) (acceptable_fail_ratio : float)
    (verdict : bool) :
  0 < number_tests < 2 ^ 32 ->
  defaultPlannerRandomTests is_free (mkTester true false) env number_tests
    acceptable_fail_ratio = Ok verdict ->
  exists num_fail,
    random_tests_loop is_free (Z.to_nat number_tests) (draws env)
      (responses env) 0 (mkPath []) = Ok num_fail /\
    0 <= num_fail <= number_tests /\
    verdict =
      negb (fp_gt (float_of_Z (if num_fail =? number_tests then 1 else 0))
              acceptable_fail_ratio).
Proof.
  intros Hn Hrun. unfold defaultPlannerRandomTests in Hrun. cbn in Hrun.
  destruct (waitForPlanner env) as [[]| | |]; cbn in Hrun; try discriminate.
  destruct (random_tests_loop is_free (Z.to_nat number_tests) (draws env)
              (responses env) 0 (mkPath [])) as [num_fail| | |] eqn:Hloop;
    cbn in Hrun; try discriminate.
  assert (Hb : 0 <= num_fail <= number_tests).
  { apply random_tests_loop_bounds in Hloop; rewrite ?Z2Nat.id in *; lia. }
  exists num_fail. split; [reflexivity|]. split; [exact Hb|].
  unfold fail_ratio_exceeded in Hrun.
  destruct (Z.eqb_spec number_tests 0) as [|_]; [lia|]. cbn in Hrun.
  rewrite unsigned_quotient in Hrun by lia.
  destruct (fp_gt _ acceptable_fail_ratio); inversion Hrun; reflexivity.
Qed.

End RandomBatch.

(** The batch of the example: ten trials on a costmap that is free
    everywhere, each drawing the start (1, 1) and the goal (8, 8); the
    planner answers the odd trials with the path (1, 1), (8, 8) and fails
    to answer the even ones in time. *)
Definition answered : PlannerResponse :=
  mkPlannerResponse true true true RC_SUCCEEDED
    (mkPath [pose_at d_1 d_1; pose_at d_8 d_8]).
Definition unanswered : PlannerResponse :=
  mkPlannerResponse true true false RC_UNKNOWN (mkPath []).
Definition half_failing : Environment :=
  mkEnvironment true
    (concat (repeat [(1, 1); (8, 8)] 10))
    (concat (repeat [answered; unanswered] 5)).

(** The acceptable ratio 0.1 as a [float]: 13421773 * 2^-27. *)
Definition ratio_0_1 : float := S754_finite false 13421773 (-27).

(** C1, at the failing input.  Five of the ten trials fail, the observed
    ratio 5/10 exceeds the acceptable ratio 0.1, and the batch returns true:
    the unsigned quotient 5 / 10 is 0, which the comparison finds not above
    0.1. *)
Theorem defaultPlannerRandomTests_passes_half_failed_batch :
  random_tests_loop (fun _ _ => true) 10 (draws half_failing)
    (responses half_failing) 0 (mkPath []) = Ok 5 /\
  observed_ratio_exceeds 5 10 ratio_0_1 = true /\
  fail_ratio_exceeded 5 10 ratio_0_1 = Ok false /\
  defaultPlannerRandomTests (fun _ _ => true) (mkTester true false)
    half_failing 10 ratio_0_1 = Ok true.
Proof. repeat split; vm_compute; reflexivity. Qed.

End PlannerTesterProofs.

(** * Properties of the recovery test *)

Module RecoveryTestProofs.
Import Rclcpp RecoveryTest.
Local Open Scope string_scope.

(** ** Waiting for the result *)

Lemma FutureReturnCode_eqb_SUCCESS (frc : FutureReturnCode) :
  FutureReturnCode_eqb frc SUCCESS = true <-> frc = SUCCESS.
Proof. destruct frc; cbn; split; congruence. Qed.

Lemma getResult_loop_Ok (fuel : nat) (spins : nat -> FutureReturnCode) :
  forall k,
    getResult_loop fuel spins k = Ok tt <->
    exists n, (k <= n < k + fuel)%nat /\ spins n = SUCCESS.
Proof.
  induction fuel as [|fuel IH]; intros k; cbn [getResult_loop].
  - split; [discriminate | intros (n & Hn & _); lia].
  - destruct (FutureReturnCode_eqb (spins k) SUCCESS) eqn:Hk; cbn [negb].
    + apply FutureReturnCode_eqb_SUCCESS in Hk.
      split; [intros _; exists k; split; [lia | exact Hk] | reflexivity].
    + rewrite IH. split; intros (n & Hn & Hs).
      * exists n. split; [lia | exact Hs].
      * exists n. split; [|exact Hs].
        assert (n <> k).
        { intros ->. apply FutureReturnCode_eqb_SUCCESS in Hs. congruence. }
        lia.
Qed.

Lemma getResult_loop_cases (fuel : nat) (spins : nat -> FutureReturnCode) :
  forall k,
    getResult_loop fuel spins k = Ok tt \/ getResult_loop fuel spins k = Starved.
Proof.
  induction fuel as [|fuel IH]; intros k; cbn [getResult_loop]; [now right|].
  destruct (negb _); [apply IH | now left].
Qed.

Lemma getResult_loop_Starved (fuel : nat) (spins : nat -> FutureReturnCode) :
  getResult_loop fuel spins 0 = Starved <->
  forall n, (n < fuel)%nat -> spins n <> SUCCESS.
Proof.
  split.
  - intros Hst n Hn Hs.
    assert (Hok : getResult_loop fuel spins 0 = Ok tt)
      by (apply getResult_loop_Ok; exists n; split; [lia | exact Hs]).
    congruence.
  - intros Hnone. destruct (getResult_loop_cases fuel spins 0) as [Hok|Hst];
      [|exact Hst].
    apply getResult_loop_Ok in Hok. destruct Hok as (n & Hn & Hs).
    exfalso. apply (Hnone n); [lia | exact Hs].
Qed.

(** The result future completes within [fuel] spins. *)
Definition arrives_within (fuel : nat) (spins : nat -> FutureReturnCode) : Prop :=
  exists n, (n < fuel)%nat /\ spins n = SUCCESS.

Lemma getResult_arrived (fuel : nat) (spins : nat -> FutureReturnCode)
    (delivered : ResultCode) (self : Fixture) (handle : ClientGoalHandle) :
  goal_handle_ self = Some handle ->
  arrives_within fuel spins ->
  getResult fuel spins delivered self = Ok delivered.
Proof.
  intros Hh (n & Hn & Hs). unfold getResult. rewrite Hh.
  assert (Hok : getResult_loop fuel spins 0 = Ok tt)
    by (apply getResult_loop_Ok; exists n; split; [lia | exact Hs]).
  rewrite Hok. reflexivity.
Qed.

(** A future whose every spin is interrupted, and one that completes at
    spin [n]. *)
Definition never_complete : nat -> FutureReturnCode := fun _ => INTERRUPTED.
Definition complete_at (n : nat) : nat -> FutureReturnCode :=
  fun k => if Nat.eqb k n then SUCCESS else INTERRUPTED.
Definition with_handle : Fixture :=
  mkFixture DummyRecovery_new (Some (mkClientGoalHandle 1)).

(** C4, as the code has it.  With a goal handle, [getResult] returns within
    a number of spins exactly when one of those spins returned SUCCESS, and is
    still waiting after them exactly when none did: every other return code
    is answered by spinning again, and no count of spins or time ends the
    wait.  [getOutcome] then reports SUCCEEDED for the code SUCCEEDED and
    FAILED for every other code. *)
Theorem getResult_retries_until_success
    (fuel : nat) (spins : nat -> FutureReturnCode) (delivered : ResultCode)
    (self : Fixture) (handle : ClientGoalHandle)
    (Hhandle : goal_handle_ self = Some handle) :
  (getResult fuel spins delivered self = Ok delivered <->
   exists n, (n < fuel)%nat /\ spins n = SUCCESS) /\
  (getResult fuel spins delivered self = Starved <->
   forall n, (n < fuel)%nat -> spins n <> SUCCESS) /\
  (getResult fuel spins delivered self = Ok delivered ->
   getOutcome fuel spins delivered self
   = Ok (if ResultCode_eqb delivered RC_SUCCEEDED then SUCCEEDED else FAILED)).
Proof.
  unfold getOutcome, getResult. rewrite Hhandle.
  destruct (getResult_loop_cases fuel spins 0) as [Hok|Hst].
  - rewrite Hok. cbn. split; [|split].
    + split; [intros _|reflexivity].
      apply getResult_loop_Ok in Hok. destruct Hok as (n & Hn & Hs).
      exists n. split; [lia | exact Hs].
    + split; [discriminate|]. intros Hnone.
      pose proof (proj2 (getResult_loop_Starved fuel spins) Hnone). congruence.
    + intros _. destruct (ResultCode_eqb delivered RC_SUCCEEDED); reflexivity.
  - rewrite Hst. cbn. split; [|split].
    + split; [discriminate|]. intros (n & Hn & Hs).
      exfalso. exact (proj1 (getResult_loop_Starved fuel spins) Hst n Hn Hs).
    + split; [intros _|reflexivity].
      exact (proj1 (getResult_loop_Starved fuel spins) Hst).
    + discriminate.
Qed.

(** C4 at a future that completes at the fourth spin, followed for four
    spins. *)
Lemma getResult_retries_until_success_witness :
  getResult 4 (complete_at 3) RC_ABORTED with_handle = Ok RC_ABORTED <->
  exists n, (n < 4)%nat /\ complete_at 3 n = SUCCESS.
Proof.
  exact (proj1 (getResult_retries_until_success 4 (complete_at 3) RC_ABORTED
                  with_handle (mkClientGoalHandle 1) eq_refl)).
Defined.

(** C4, against the claim.  No bound fits: a future that never completes
    keeps [getResult] waiting past every number of spins, and for a future
    that completes at spin [n] no number of spins fixed beforehand is enough
    for every [n]. *)
Lemma getResult_has_no_bound :
  ~ (exists bound : nat,
       getResult bound never_complete RC_SUCCEEDED with_handle <> Starved) /\
  ~ (exists bound : nat, forall n : nat,
       getResult bound (complete_at n) RC_SUCCEEDED with_handle
       = Ok RC_SUCCEEDED).
Proof.
  split.
  - intros (bound & Hret). apply Hret. unfold getResult. cbn [goal_handle_ with_handle].
    assert (Hst : getResult_loop bound never_complete 0 = Starved)
      by (apply getResult_loop_Starved; intros n _; discriminate).
    rewrite Hst. reflexivity.
  - intros (bound & Hret). specialize (Hret bound).
    unfold getResult in Hret. cbn [goal_handle_ with_handle] in Hret.
    assert (Hst : getResult_loop bound (complete_at bound) 0 = Starved).
    { apply getResult_loop_Starved. intros n Hn. unfold complete_at.
      destruct (Nat.eqb_spec n bound); [lia | discriminate]. }
    rewrite Hst in Hret. discriminate.
Qed.

(** ** Sending a command *)

(** The three ways [sendCommand] fails, and the way it succeeds. *)
Definition not_ready : SendAnswers := mkSendAnswers false SUCCESS None.
Definition rejected : SendAnswers := mkSendAnswers true SUCCESS None.
Definition accepting : SendAnswers :=
  mkSendAnswers true SUCCESS (Some (mkClientGoalHandle 1)).

(** The server is there, the send completes and the goal is accepted. *)
Definition accepted (a : SendAnswers) : Prop :=
  server_ready a = true /\ goal_spin a = SUCCESS /\ future_goal a <> None.

Lemma sendCommand_accepted (a : SendAnswers) (command : string) (self : Fixture) :
  accepted a ->
  exists handle,
    future_goal a = Some handle /\
    sendCommand a command self = (true, mkFixture (recovery_ self) (Some handle)).
Proof.
  intros (Hready & Hspin & Hgoal). unfold sendCommand.
  rewrite Hready, Hspin. cbn.
  destruct (future_goal a) as [handle|]; [|congruence].
  exists handle. split; reflexivity.
Qed.

(** C5, as the code has it.  [sendCommand] returns true exactly when the
    server is ready, the send completes and the goal handle is not null; when
    the server is not ready it returns false and leaves the fixture as it
    was, and when the server declines the goal it returns false with the
    goal handle null: one and the same return value. *)
Theorem sendCommand_failures_share_one_value
    (a : SendAnswers) (command : string) (self : Fixture) :
  (fst (sendCommand a command self) = true <-> accepted a) /\
  (server_ready a = false -> sendCommand a command self = (false, self)) /\
  (server_ready a = true -> goal_spin a = SUCCESS -> future_goal a = None ->
   sendCommand a command self = (false, mkFixture (recovery_ self) None)).
Proof.
  unfold sendCommand, accepted. split; [|split].
  - destruct (server_ready a); cbn; [|intuition congruence].
    destruct (goal_spin a); cbn; try (intuition congruence).
    destruct (future_goal a); cbn; intuition congruence.
  - intros ->. reflexivity.
  - intros -> -> ->. reflexivity.
Qed.

(** C5, against the claim.  On the fixture as [SetUp] leaves it, a server
    that is not ready and a server that declines the goal give the same
    return value and the same fixture. *)
Lemma sendCommand_not_ready_same_as_rejected :
  sendCommand not_ready "Testing success" SetUp = (false, SetUp) /\
  sendCommand rejected "Testing success" SetUp = (false, SetUp) /\
  sendCommand not_ready "Testing success" SetUp
  = sendCommand rejected "Testing success" SetUp.
Proof. repeat split. Qed.

(** ** The dummy behaviour *)

Lemma onRun_state_from_goal_alone (command : string) (now : time_point)
    (self self' : DummyRecovery) :
  onRun command now self = onRun command now self'.
Proof. reflexivity. Qed.

Lemma onRun_Testing_success (now : time_point) (self : DummyRecovery) :
  onRun "Testing success" now self
  = (SUCCEEDED, mkDummyRecovery true "Testing success" now).
Proof. reflexivity. Qed.

Lemma onRun_Testing_failure_on_run (now : time_point) (self : DummyRecovery) :
  onRun "Testing failure on run" now self
  = (SUCCEEDED, mkDummyRecovery true "Testing failure on run" now).
Proof. reflexivity. Qed.

Lemma onRun_Testing_failure_on_init (now : time_point) (self : DummyRecovery) :
  onRun "Testing failure on init" now self
  = (FAILED, mkDummyRecovery false "Testing failure on init" now).
Proof. reflexivity. Qed.

Lemma onCycleUpdate_Testing_success (start now : time_point) :
  onCycleUpdate now (mkDummyRecovery true "Testing success" start)
  = if seconds 5 <=? now - start then SUCCEEDED else RUNNING.
Proof. reflexivity. Qed.

Lemma onCycleUpdate_other_command (b : bool) (start now : time_point) :
  onCycleUpdate now (mkDummyRecovery b "Testing failure on run" start) = FAILED.
Proof. reflexivity. Qed.

(** No cancellation is requested and the motion has not lasted 5 s. *)
Definition still_moving (start : time_point) (t : Tick) : Prop :=
  cancel_requested t = false /\ clock t - start < seconds 5.

(** No cancellation is requested and the motion has lasted 5 s or more. *)
Definition motion_done (start : time_point) (t : Tick) : Prop :=
  cancel_requested t = false /\ seconds 5 <= clock t - start.

Lemma cyclic_phase_Testing_success (start : time_point)
    (before after : list Tick) (t : Tick) :
  Forall (still_moving start) before ->
  motion_done start t ->
  cyclic_phase (before ++ t :: after)
    (mkDummyRecovery true "Testing success" start) = Ok RC_SUCCEEDED.
Proof.
  intros Hbefore [Hc Ht].
  induction Hbefore as [|q before [Hqc Hq] _ IH]; cbn [app cyclic_phase].
  - rewrite Hc, onCycleUpdate_Testing_success.
    destruct (Z.leb_spec (seconds 5) (clock t - start)); [reflexivity | lia].
  - rewrite Hqc, onCycleUpdate_Testing_success.
    destruct (Z.leb_spec (seconds 5) (clock q - start)); [lia | exact IH].
Qed.

(** The exchange of one test line pair, put together. *)
Lemma sendCommand_getOutcome_served (fuel : nat) (xch : Exchange)
    (command : string) (self : Fixture)
    (delivered : ResultCode) (recovery : DummyRecovery) :
  accepted (answers xch) ->
  arrives_within fuel (result_spins xch) ->
  execute command (run_clock xch) (ticks xch) (recovery_ self)
  = (Ok delivered, recovery) ->
  exists handle,
    future_goal (answers xch) = Some handle /\
    sendCommand_getOutcome fuel xch command self
    = Ok (if ResultCode_eqb delivered RC_SUCCEEDED then SUCCEEDED else FAILED,
          mkFixture recovery (Some handle)).
Proof.
  intros Hacc Harr Hexec.
  destruct (sendCommand_accepted _ command self Hacc) as (handle & Hgoal & Hsend).
  exists handle. split; [exact Hgoal|].
  unfold sendCommand_getOutcome. rewrite Hsend. cbn [negb recovery_ goal_handle_].
  rewrite Hexec. cbn [bind]. unfold getOutcome.
  rewrite (getResult_arrived fuel _ delivered
             (mkFixture recovery (Some handle)) handle eq_refl Harr).
  cbn [bind].
  destruct (ResultCode_eqb delivered RC_SUCCEEDED); reflexivity.
Qed.

Lemma execute_state_from_goal_alone (command : string) (now : time_point)
    (ticks : list Tick) (self self' : DummyRecovery) :
  execute command now ticks self = execute command now ticks self'.
Proof. reflexivity. Qed.

Lemma sendCommand_getOutcome_from_goal_alone (fuel : nat) (xch : Exchange)
    (command : string) (self self' : Fixture) :
  sendCommand_getOutcome fuel xch command self
  = sendCommand_getOutcome fuel xch command self'.
Proof.
  unfold sendCommand_getOutcome, sendCommand.
  destruct (server_ready (answers xch)); [|reflexivity].
  destruct (goal_spin (answers xch)); try reflexivity.
  destruct (future_goal (answers xch)); reflexivity.
Qed.

(** ** The scenarios *)

(** C6. For the command "Testing success": [onRun] returns SUCCEEDED, the
    outcome on which the supervisor goes on to the cyclic phase, with the
    behaviour initialized and the start time captured; [onCycleUpdate]
    returns RUNNING at every tick whose clock is less than 5 s past the start
    time and SUCCEEDED at the first tick that is 5 s or more past it; the
    goal ends SUCCEEDED and [getOutcome] yields SUCCEEDED. *)
Theorem testingSuccess_succeeds_after_motion_duration
    (fuel : nat) (xch : Exchange) (self : Fixture)
    (before after : list Tick) (t : Tick)
    (Haccepted : accepted (answers xch))
    (Hticks : ticks xch = before ++ t :: after)
    (Hbefore : Forall (still_moving (run_clock xch)) before)
    (Hdone : motion_done (run_clock xch) t)
    (Harrives : arrives_within fuel (result_spins xch)) :
  onRun "Testing success" (run_clock xch) (recovery_ self)
  = (SUCCEEDED, mkDummyRecovery true "Testing success" (run_clock xch)) /\
  Forall (fun q =>
            onCycleUpdate (clock q)
              (mkDummyRecovery true "Testing success" (run_clock xch))
            = RUNNING) before /\
  onCycleUpdate (clock t)
    (mkDummyRecovery true "Testing success" (run_clock xch)) = SUCCEEDED /\
  execute "Testing success" (run_clock xch) (ticks xch) (recovery_ self)
  = (Ok RC_SUCCEEDED,
     mkDummyRecovery true "Testing success" (run_clock xch)) /\
  exists handle,
    sendCommand_getOutcome fuel xch "Testing success" self
    = Ok (SUCCEEDED,
          mkFixture (mkDummyRecovery true "Testing success" (run_clock xch))
            (Some handle)).
Proof.
  assert (Hexec :
    execute "Testing success" (run_clock xch) (ticks xch) (recovery_ self)
    = (Ok RC_SUCCEEDED,
       mkDummyRecovery true "Testing success" (run_clock xch))).
  { unfold execute. rewrite onRun_Testing_success, Hticks.
    rewrite (cyclic_phase_Testing_success _ _ _ _ Hbefore Hdone). reflexivity. }
  split; [apply onRun_Testing_success|]. split; [|split; [|split]].
  - eapply Forall_impl; [|exact Hbefore]. intros q [_ Hq].
    rewrite onCycleUpdate_Testing_success.
    destruct (Z.leb_spec (seconds 5) (clock q - run_clock xch)); [lia | reflexivity].
  - destruct Hdone as [_ Ht]. rewrite onCycleUpdate_Testing_success.
    destruct (Z.leb_spec (seconds 5) (clock t - run_clock xch)); [reflexivity | lia].
  - exact Hexec.
  - destruct (sendCommand_getOutcome_served fuel xch _ self _ _
                Haccepted Harrives Hexec) as (handle & _ & Hout).
    exists handle. exact Hout.
Qed.

(** An exchange for "Testing success": the goal is accepted, [onRun] reads
    the clock at 1 s, the ticks read 3 s, 5.9 s and 6.1 s, and the result
    is there at the third spin. *)
Definition success_exchange : Exchange :=
  mkExchange accepting (seconds 1)
    [mkTick false (seconds 3); mkTick false 5900000000; mkTick false 6100000000]
    (complete_at 2).

(** C6 at [success_exchange]. *)
Lemma testingSuccess_succeeds_after_motion_duration_witness :
  exists handle,
    sendCommand_getOutcome 3 success_exchange "Testing success" SetUp
    = Ok (SUCCEEDED,
          mkFixture (mkDummyRecovery true "Testing success" (seconds 1))
            (Some handle)).
Proof.
  refine (proj2 (proj2 (proj2 (proj2
    (testingSuccess_succeeds_after_motion_duration 3 success_exchange SetUp
       [mkTick false (seconds 3); mkTick false 5900000000] []
       (mkTick false 6100000000) _ eq_refl _ _ _))))).
  - repeat split; discriminate.
  - repeat constructor; vm_compute; reflexivity.
  - split; [reflexivity | vm_compute; discriminate].
  - exists 2%nat. split; [lia | reflexivity].
Defined.

(** C7, as the code has it.  For the command "Testing failure on run":
    [onRun] returns SUCCEEDED and leaves the initialized flag true; the first
    [onCycleUpdate], at whatever time, returns FAILED because the stored
    command is not "Testing success"; the goal ends failed and [getOutcome]
    yields FAILED. *)
Theorem testingFailureOnRun_fails_at_first_cycle
    (fuel : nat) (xch : Exchange) (self : Fixture)
    (t : Tick) (rest : list Tick)
    (Haccepted : accepted (answers xch))
    (Hticks : ticks xch = t :: rest)
    (Hcancel : cancel_requested t = false)
    (Harrives : arrives_within fuel (result_spins xch)) :
  onRun "Testing failure on run" (run_clock xch) (recovery_ self)
  = (SUCCEEDED, mkDummyRecovery true "Testing failure on run" (run_clock xch)) /\
  onCycleUpdate (clock t)
    (mkDummyRecovery true "Testing failure on run" (run_clock xch)) = FAILED /\
  execute "Testing failure on run" (run_clock xch) (ticks xch) (recovery_ self)
  = (Ok RC_ABORTED,
     mkDummyRecovery true "Testing failure on run" (run_clock xch)) /\
  exists handle,
    sendCommand_getOutcome fuel xch "Testing failure on run" self
    = Ok (FAILED,
          mkFixture
            (mkDummyRecovery true "Testing failure on run" (run_clock xch))
            (Some handle)).
Proof.
  assert (Hexec :
    execute "Testing failure on run" (run_clock xch) (ticks xch) (recovery_ self)
    = (Ok RC_ABORTED,
       mkDummyRecovery true "Testing failure on run" (run_clock xch))).
  { unfold execute. rewrite onRun_Testing_failure_on_run, Hticks.
    cbn [cyclic_phase]. rewrite Hcancel, onCycleUpdate_other_command.
    reflexivity. }
  split; [apply onRun_Testing_failure_on_run|].
  split; [apply onCycleUpdate_other_command|].
  split; [exact Hexec|].
  destruct (sendCommand_getOutcome_served fuel xch _ self _ _
              Haccepted Harrives Hexec) as (handle & _ & Hout).
  exists handle. exact Hout.
Qed.

(** An exchange with a single tick, read at 1 s, and the result there at
    the first spin. *)
Definition one_tick_exchange : Exchange :=
  mkExchange accepting 0 [mkTick false (seconds 1)] (complete_at 0).

(** C7 at [one_tick_exchange]. *)
Lemma testingFailureOnRun_fails_at_first_cycle_witness :
  exists handle,
    sendCommand_getOutcome 1 one_tick_exchange "Testing failure on run" SetUp
    = Ok (FAILED,
          mkFixture (mkDummyRecovery true "Testing failure on run" 0)
            (Some handle)).
Proof.
  refine (proj2 (proj2 (proj2
    (testingFailureOnRun_fails_at_first_cycle 1 one_tick_exchange SetUp
       (mkTick false (seconds 1)) [] _ eq_refl eq_refl _)))).
  - repeat split; discriminate.
  - exists 0%nat. split; [lia | reflexivity].
Defined.

(** C7, against the claim.  After [onRun] with "Testing failure on run" the
    initialized flag is true, not false, and the cyclic update of the
    behaviour so left returns FAILED all the same. *)
Lemma onRun_failure_on_run_sets_initialized :
  initialized_ (snd (onRun "Testing failure on run" 0 DummyRecovery_new)) = true /\
  initialized_ (snd (onRun "Testing failure on run" 0 DummyRecovery_new)) <> false /\
  onCycleUpdate (seconds 1)
    (snd (onRun "Testing failure on run" 0 DummyRecovery_new)) = FAILED.
Proof. repeat split. discriminate. Qed.

(** C8. The failure-on-init exchange followed by the failure-on-run exchange
    on one fixture yields FAILED and then FAILED; the second exchange gives
    the same outcome, and leaves the same fixture, from any fixture it starts
    on, the one [SetUp] makes included; [onRun] sets every field of the
    behaviour from the goal and the clock, whatever the fields held. *)
Theorem testingSequentialFailures_no_residual_state
    (fuel : nat) (first second : Exchange) (t : Tick) (rest : list Tick)
    (Hfirst : accepted (answers first))
    (Hsecond : accepted (answers second))
    (Harrives1 : arrives_within fuel (result_spins first))
    (Harrives2 : arrives_within fuel (result_spins second))
    (Hticks : ticks second = t :: rest)
    (Hcancel : cancel_requested t = false) :
  testingSequentialFailures fuel first second = Ok (FAILED, FAILED) /\
  (forall used : Fixture,
     sendCommand_getOutcome fuel second "Testing failure on run" used
     = sendCommand_getOutcome fuel second "Testing failure on run" SetUp) /\
  (forall (command : string) (now : time_point) (used : DummyRecovery),
     onRun command now used = onRun command now DummyRecovery_new) /\
  fst (onRun "Testing failure on init" (run_clock first) DummyRecovery_new)
  = FAILED.
Proof.
  split; [|split; [|split]].
  - unfold testingSequentialFailures.
    assert (Hexec1 :
      execute "Testing failure on init" (run_clock first) (ticks first)
        (recovery_ SetUp)
      = (Ok RC_ABORTED,
         mkDummyRecovery false "Testing failure on init" (run_clock first)))
      by reflexivity.
    destruct (sendCommand_getOutcome_served fuel first _ SetUp _ _
                Hfirst Harrives1 Hexec1) as (h1 & _ & Hout1).
    rewrite Hout1. cbn [bind ResultCode_eqb].
    assert (Hexec2 : forall used,
      execute "Testing failure on run" (run_clock second) (ticks second)
        (recovery_ used)
      = (Ok RC_ABORTED,
         mkDummyRecovery true "Testing failure on run" (run_clock second))).
    { intros used. unfold execute.
      rewrite onRun_Testing_failure_on_run, Hticks.
      cbn [cyclic_phase]. rewrite Hcancel, onCycleUpdate_other_command.
      reflexivity. }
    set (used := mkFixture
           (mkDummyRecovery false "Testing failure on init" (run_clock first))
           (Some h1)).
    destruct (sendCommand_getOutcome_served fuel second _ used _ _
                Hsecond Harrives2 (Hexec2 used)) as (h2 & _ & Hout2).
    rewrite Hout2. reflexivity.
  - intros used. apply sendCommand_getOutcome_from_goal_alone.
  - intros command now used. apply onRun_state_from_goal_alone.
  - reflexivity.
Qed.

(** C8 at [one_tick_exchange], twice. *)
Lemma testingSequentialFailures_no_residual_state_witness :
  testingSequentialFailures 1 one_tick_exchange one_tick_exchange
  = Ok (FAILED, FAILED).
Proof.
  refine (proj1
    (testingSequentialFailures_no_residual_state 1 one_tick_exchange
       one_tick_exchange (mkTick false (seconds 1)) [] _ _ _ _ eq_refl eq_refl)).
  - repeat split; discriminate.
  - repeat split; discriminate.
  - exists 0%nat. split; [lia | reflexivity].
  - exists 0%nat. split; [lia | reflexivity].
Defined.

End RecoveryTestProofs.

(** * Further properties of the planner tester *)

Module PlannerTesterExtras.
Import FP Rclcpp PlannerTester PlannerTesterProofs.

(** ** The request *)

(** The answer carries a goal handle and a result with the code SUCCEEDED,
    each within its wait. *)
Definition fully_answered (response : PlannerResponse) : Prop :=
  goal_future_ready response = true /\
  goal_handle_valid response = true /\
  result_future_ready response = true /\
  result_code response = RC_SUCCEEDED.

Lemma ResultCode_eqb_eq (a b : ResultCode) :
  ResultCode_eqb a b = true <-> a = b.
Proof. destruct a, b; cbn; split; congruence. Qed.

Lemma sendRequest_answered (response : PlannerResponse)
    (goal : ComputePathToPoseCommand) (path : ComputePathToPoseResult) :
  fully_answered response ->
  sendRequest response goal path = (SUCCEEDED, result_path response).
Proof.
  intros (H1 & H2 & H3 & H4). unfold sendRequest.
  rewrite H1, H2, H3, H4. reflexivity.
Qed.

Lemma sendRequest_unanswered (response : PlannerResponse)
    (goal : ComputePathToPoseCommand) (path : ComputePathToPoseResult) :
  ~ fully_answered response ->
  sendRequest response goal path = (FAILED, path).
Proof.
  intros Hnot. unfold sendRequest, fully_answered in *.
  destruct (goal_future_ready response); cbn; [|reflexivity].
  destruct (goal_handle_valid response); cbn; [|reflexivity].
  destruct (result_future_ready response); cbn; [|reflexivity].
  destruct (ResultCode_eqb (result_code response) RC_SUCCEEDED) eqn:Hc; cbn;
    [|reflexivity].
  apply ResultCode_eqb_eq in Hc. tauto.
Qed.

Lemma fully_answered_dec (response : PlannerResponse) :
  fully_answered response \/ ~ fully_answered response.
Proof.
  unfold fully_answered.
  destruct (goal_future_ready response), (goal_handle_valid response),
    (result_future_ready response), (result_code response);
    intuition congruence.
Qed.

(** X1. [sendRequest] reports SUCCEEDED exactly when the goal future is ready
    in time, the goal handle is not null, the result future is ready in time
    and the result code is SUCCEEDED, and only then replaces the caller's path
    by the planner's; in every other case it reports FAILED and leaves the
    caller's path as it was.  It never reports RUNNING. *)
Theorem sendRequest_succeeded_iff_fully_answered
    (response : PlannerResponse) (goal : ComputePathToPoseCommand)
    (path : ComputePathToPoseResult) :
  (fst (sendRequest response goal path) = SUCCEEDED <-> fully_answered response) /\
  (fst (sendRequest response goal path) = SUCCEEDED ->
   snd (sendRequest response goal path) = result_path response) /\
  (fst (sendRequest response goal path) = FAILED <-> ~ fully_answered response) /\
  (fst (sendRequest response goal path) = FAILED ->
   snd (sendRequest response goal path) = path) /\
  fst (sendRequest response goal path) <> RUNNING.
Proof.
  destruct (fully_answered_dec response) as [Hyes|Hno].
  - rewrite (sendRequest_answered _ goal path Hyes). cbn.
    intuition congruence.
  - rewrite (sendRequest_unanswered _ goal path Hno). cbn.
    intuition congruence.
Qed.

(** ** Collision check: the three outcomes *)

Lemma cell_of_cases (p : Pose) :
  (exists mx my, cell_of p = Ok (mx, my)) \/ cell_of p = Undefined.
Proof.
  unfold cell_of.
  destruct (static_cast_unsigned_int_cases (std_round (x (position p))))
    as [[mx Hx]|Hx]; rewrite Hx; cbn; [|now right].
  destruct (static_cast_unsigned_int_cases (std_round (y (position p))))
    as [[my Hy]|Hy]; rewrite Hy; cbn; [|now right].
  left. now exists mx, my.
Qed.

(** A pose is on a free cell, on an occupied cell, or has no cell. *)
Lemma pose_cases (is_free : Z -> Z -> bool) (p : Pose) :
  on_free_cell is_free p \/ on_occupied_cell is_free p \/ cell_of p = Undefined.
Proof.
  destruct (cell_of_cases p) as [(mx & my & C)|C]; [|tauto].
  pose proof (proj1 (cell_of_Ok p mx my) C) as (Hx & Hy & Rx & Ry).
  destruct (is_free mx my) eqn:Hfree.
  - left. exists mx, my. tauto.
  - right. left. exists mx, my. tauto.
Qed.

Lemma on_free_cell_cell_of (is_free : Z -> Z -> bool) (p : Pose) :
  on_free_cell is_free p -> cell_of p <> Undefined.
Proof.
  intros (rx & ry & Hx & Hy & Rx & Ry & _) C.
  assert (C' : cell_of p = Ok (rx, ry)) by (apply cell_of_Ok; tauto).
  congruence.
Qed.

Lemma on_occupied_not_free (is_free : Z -> Z -> bool) (p : Pose) :
  on_occupied_cell is_free p -> ~ on_free_cell is_free p.
Proof.
  intros (rx & ry & Hx & Hy & _ & _ & Hocc) (rx' & ry' & Hx' & Hy' & _ & _ & Hfree).
  congruence.
Qed.

Section Outcomes.

Variable is_free : Z -> Z -> bool.

Lemma isCollisionFree_poses_undefined_step (p : Pose) (rest : list Pose) :
  cell_of p = Undefined ->
  isCollisionFree_poses is_free (p :: rest) = Undefined.
Proof. intros C. cbn. rewrite C. reflexivity. Qed.

(** The verdict of a sequence is decided in its first part when that part
    does not pass. *)
Lemma isCollisionFree_poses_app (a b : list Pose) :
  isCollisionFree_poses is_free (a ++ b) =
  match isCollisionFree_poses is_free a with
  | Ok true => isCollisionFree_poses is_free b
  | other => other
  end.
Proof.
  induction a as [|p a IH]; [reflexivity|].
  rewrite <- app_comm_cons.
  destruct (pose_cases is_free p) as [Hp|[Hp|Hp]].
  - rewrite !(isCollisionFree_poses_free_step _ _ _ Hp). exact IH.
  - rewrite !(isCollisionFree_poses_occupied_step _ _ _ Hp). reflexivity.
  - rewrite !(isCollisionFree_poses_undefined_step _ _ Hp). reflexivity.
Qed.

(** Where the loop stops: the poses before are on free cells and the pose
    itself is not. *)
Lemma isCollisionFree_poses_stops (ps : list Pose) :
  isCollisionFree_poses is_free ps = Ok true \/
  exists before p after,
    ps = before ++ p :: after /\
    Forall (on_free_cell is_free) before /\
    ((on_occupied_cell is_free p /\ isCollisionFree_poses is_free ps = Ok false) \/
     (cell_of p = Undefined /\ isCollisionFree_poses is_free ps = Undefined)).
Proof.
  induction ps as [|p ps IH]; [now left|].
  destruct (pose_cases is_free p) as [Hp|[Hp|Hp]].
  - rewrite (isCollisionFree_poses_free_step _ _ _ Hp).
    destruct IH as [IH|(before & q & after & -> & Hb & Hq)]; [now left|].
    right. exists (p :: before), q, after.
    split; [reflexivity|]. split; [now constructor | exact Hq].
  - right. exists [], p, ps. split; [reflexivity|]. split; [constructor|].
    left. split; [exact Hp|]. now apply isCollisionFree_poses_occupied_step.
  - right. exists [], p, ps. split; [reflexivity|]. split; [constructor|].
    right. split; [exact Hp|]. now apply isCollisionFree_poses_undefined_step.
Qed.

End Outcomes.

(** X2. [isCollisionFree] returns false only for a path that has a pose on
    an occupied cell with every earlier pose on a free cell, and is undefined
    only for a path that reaches, over free cells, a pose whose rounded
    coordinate does not fit [unsigned int]; it never throws. *)
Theorem isCollisionFree_false_only_at_occupied_cell
    (is_free : Z -> Z -> bool) (path : ComputePathToPoseResult) :
  (isCollisionFree is_free path = Ok false <->
   exists before p after,
     poses path = before ++ p :: after /\
     Forall (on_free_cell is_free) before /\ on_occupied_cell is_free p) /\
  (isCollisionFree is_free path = Undefined <->
   exists before p after,
     poses path = before ++ p :: after /\
     Forall (on_free_cell is_free) before /\ cell_of p = Undefined) /\
  (forall what, isCollisionFree is_free path <> Thrown what).
Proof.
  unfold isCollisionFree.
  assert (Hocc : forall before p after,
    poses path = before ++ p :: after ->
    Forall (on_free_cell is_free) before -> on_occupied_cell is_free p ->
    isCollisionFree_poses is_free (poses path) = Ok false).
  { intros before p after -> Hb Hp.
    now apply isCollisionFree_poses_first_occupied. }
  assert (Hund : forall before p after,
    poses path = before ++ p :: after ->
    Forall (on_free_cell is_free) before -> cell_of p = Undefined ->
    isCollisionFree_poses is_free (poses path) = Undefined).
  { intros before p after -> Hb Hp. rewrite isCollisionFree_poses_app.
    rewrite (proj2 (isCollisionFree_poses_true is_free before) Hb).
    now apply isCollisionFree_poses_undefined_step. }
  destruct (isCollisionFree_poses_stops is_free (poses path))
    as [Htrue|(before & p & after & Hsplit & Hb & [[Hp Hr]|[Hp Hr]])].
  - rewrite Htrue. split; [|split].
    + split; [discriminate|]. intros (b & q & a & Hs & Hb & Hq).
      rewrite (Hocc b q a Hs Hb Hq) in Htrue. discriminate.
    + split; [discriminate|]. intros (b & q & a & Hs & Hb & Hq).
      rewrite (Hund b q a Hs Hb Hq) in Htrue. discriminate.
    + discriminate.
  - rewrite Hr. split; [|split].
    + split; [intros _; now exists before, p, after | reflexivity].
    + split; [discriminate|]. intros (b & q & a & Hs & Hb' & Hq).
      rewrite (Hund b q a Hs Hb' Hq) in Hr. discriminate.
    + discriminate.
  - rewrite Hr. split; [|split].
    + split; [discriminate|]. intros (b & q & a & Hs & Hb' & Hq).
      rewrite (Hocc b q a Hs Hb' Hq) in Hr. discriminate.
    + split; [intros _; now exists before, p, after | reflexivity].
    + discriminate.
Qed.

(** X3. The check of two paths laid end to end is the check of the first
    when that one does not pass, and the check of the second otherwise: a
    collision in the first part is never hidden by what follows, and a path
    passes exactly when both parts pass. *)
Theorem isCollisionFree_of_joined_paths
    (is_free : Z -> Z -> bool) (a b : list Pose) :
  isCollisionFree is_free (mkPath (a ++ b)) =
  match isCollisionFree is_free (mkPath a) with
  | Ok true => isCollisionFree is_free (mkPath b)
  | other => other
  end /\
  (isCollisionFree is_free (mkPath (a ++ b)) = Ok true <->
   isCollisionFree is_free (mkPath a) = Ok true /\
   isCollisionFree is_free (mkPath b) = Ok true).
Proof.
  unfold isCollisionFree. cbn [poses].
  split; [apply isCollisionFree_poses_app|].
  rewrite !isCollisionFree_poses_true. apply Forall_app.
Qed.

(** The cells of the poses that have one. *)
Definition on_path (ps : list Pose) (mx my : Z) : Prop :=
  exists p, In p ps /\ cell_of p = Ok (mx, my).

(** X21. [isCollisionFree] asks the costmap about the cells of the path's
    poses only: two costmaps that agree on those cells give the same verdict,
    whatever they hold elsewhere. *)
Theorem isCollisionFree_reads_path_cells_only
    (is_free is_free' : Z -> Z -> bool) (path : ComputePathToPoseResult)
    (Hagree : forall mx my,
       on_path (poses path) mx my -> is_free mx my = is_free' mx my) :
  isCollisionFree is_free path = isCollisionFree is_free' path.
Proof.
  unfold isCollisionFree. destruct path as [ps]. cbn [poses] in *.
  induction ps as [|p ps IH]; [reflexivity|].
  cbn [isCollisionFree_poses].
  destruct (cell_of p) as [[mx my]| | |] eqn:Hcell; cbn [bind]; try reflexivity.
  rewrite <- (Hagree mx my) by (exists p; split; [now left | exact Hcell]).
  destruct (is_free mx my); cbn [negb]; [|reflexivity].
  apply IH. intros cx cy (q & Hq & Hc). apply Hagree.
  exists q. split; [now right | exact Hc].
Qed.

(** X21 for a costmap free everywhere and one free at the cell (1, 1) only,
    on the path of the single pose (1, 1). *)
Lemma isCollisionFree_reads_path_cells_only_witness :
  isCollisionFree (fun _ _ => true) (mkPath [pose_at d_1 d_1])
  = isCollisionFree (fun mx my => (mx =? 1) && (my =? 1)) (mkPath [pose_at d_1 d_1]).
Proof.
  apply (isCollisionFree_reads_path_cells_only (fun _ _ => true)
           (fun mx my => (mx =? 1) && (my =? 1)) (mkPath [pose_at d_1 d_1])).
  intros mx my (p & [<-|[]] & Hcell).
  vm_compute in Hcell. inversion Hcell; subst. reflexivity.
Defined.

(** ** Endpoint check: what it looks at *)

Lemma isWithinTolerance_nonempty (robot_position : Point)
    (goal : ComputePathToPoseCommand) (first : Pose) (rest : list Pose) :
  isWithinTolerance robot_position goal (mkPath (first :: rest))
  = Ok (endpoints_equal robot_position goal first (last (first :: rest) first)).
Proof. unfold isWithinTolerance. apply isWithinTolerance5_nonempty. Qed.

(** X4. [isWithinTolerance] looks at the first and the last pose only: the
    poses between them do not change the verdict, and on a path of a single
    pose that pose is compared with both the start and the goal. *)
Theorem isWithinTolerance_looks_at_both_ends_only
    (robot_position : Point) (goal : ComputePathToPoseCommand)
    (first final : Pose) (between : list Pose) :
  isWithinTolerance robot_position goal (mkPath (first :: between ++ [final]))
  = isWithinTolerance robot_position goal (mkPath [first; final]) /\
  isWithinTolerance robot_position goal (mkPath (first :: between ++ [final]))
  = Ok (endpoints_equal robot_position goal first final) /\
  isWithinTolerance robot_position goal (mkPath [first])
  = Ok (endpoints_equal robot_position goal first first).
Proof.
  rewrite !isWithinTolerance_nonempty.
  replace (last (first :: between ++ [final]) first) with final.
  - repeat split.
  - change (first :: between ++ [final]) with ((first :: between) ++ [final]).
    symmetry. apply last_last.
Qed.

Lemma fp_eq_nan_r (a : spec_float) : fp_eq a S754_nan = false.
Proof. destruct a; reflexivity. Qed.

Lemma fp_eq_nan_l (a : spec_float) : fp_eq S754_nan a = false.
Proof. destruct a; reflexivity. Qed.

(** One of the eight coordinates the endpoint check compares is NaN. *)
Definition compares_nan (robot_position : Point)
    (goal : ComputePathToPoseCommand) (path_start path_end : Pose) : Prop :=
  In S754_nan
    [x robot_position; y robot_position;
     x (position (pose goal)); y (position (pose goal));
     x (position path_start); y (position path_start);
     x (position path_end); y (position path_end)].

(** X5. A NaN among the coordinates of the requested start, the requested
    goal or the path's two ends makes the endpoint check fail, also when the
    path end and the goal hold the very same NaN: [==] is false on NaN. *)
Theorem isWithinTolerance_rejects_nan
    (robot_position : Point) (goal : ComputePathToPoseCommand)
    (first : Pose) (rest : list Pose)
    (Hnan : compares_nan robot_position goal first (last (first :: rest) first)) :
  isWithinTolerance robot_position goal (mkPath (first :: rest)) = Ok false.
Proof.
  rewrite isWithinTolerance_nonempty. f_equal.
  unfold compares_nan in Hnan. unfold endpoints_equal.
  cbn [In] in Hnan.
  repeat (destruct Hnan as [Hnan|Hnan];
          [rewrite Hnan, ?fp_eq_nan_r, ?fp_eq_nan_l;
           rewrite ?andb_false_r, ?andb_false_l; reflexivity|]).
  contradiction.
Qed.

(** X5 at a path that ends on the goal, the goal's x being NaN. *)
Lemma isWithinTolerance_rejects_nan_witness :
  isWithinTolerance (mkPoint d_1 d_1) (mkPoseStamped (pose_at S754_nan d_8))
    (mkPath [pose_at d_1 d_1; pose_at S754_nan d_8]) = Ok false.
Proof.
  apply (isWithinTolerance_rejects_nan (mkPoint d_1 d_1)
           (mkPoseStamped (pose_at S754_nan d_8))
           (pose_at d_1 d_1) [pose_at S754_nan d_8]).
  unfold compares_nan. cbn. tauto.
Defined.

(** ** The planner test *)

Lemma plannerTest_unanswered (is_free : Z -> Z -> bool)
    (response : PlannerResponse) (robot_position : Point)
    (goal : ComputePathToPoseCommand) (path : ComputePathToPoseResult) :
  ~ fully_answered response ->
  plannerTest is_free response robot_position goal path = Ok (false, path).
Proof.
  intros Hno. unfold plannerTest.
  rewrite (sendRequest_unanswered _ goal path Hno). reflexivity.
Qed.

Lemma plannerTest_answered (is_free : Z -> Z -> bool)
    (response : PlannerResponse) (robot_position : Point)
    (goal : ComputePathToPoseCommand) (path : ComputePathToPoseResult) :
  fully_answered response ->
  plannerTest is_free response robot_position goal path =
  (free <- isCollisionFree is_free (result_path response) ;;
   if free then
     within <- isWithinTolerance robot_position goal (result_path response) ;;
     Ok (within, result_path response)
   else Ok (false, result_path response))%result.
Proof.
  intros Hyes. unfold plannerTest.
  rewrite (sendRequest_answered _ goal path Hyes). reflexivity.
Qed.

(** The path passes both checks of [plannerTest]. *)
Definition valid_path (is_free : Z -> Z -> bool) (robot_position : Point)
    (goal : ComputePathToPoseCommand) (path : ComputePathToPoseResult) : Prop :=
  Forall (on_free_cell is_free) (poses path) /\
  exists first rest,
    poses path = first :: rest /\
    endpoints_equal robot_position goal first (last (first :: rest) first) = true.

Lemma plannerTest_true_inv (is_free : Z -> Z -> bool)
    (response : PlannerResponse) (robot_position : Point)
    (goal : ComputePathToPoseCommand) (path found : ComputePathToPoseResult) :
  plannerTest is_free response robot_position goal path = Ok (true, found) ->
  fully_answered response /\ found = result_path response /\
  valid_path is_free robot_position goal found.
Proof.
  intros Hrun. destruct (fully_answered_dec response) as [Hyes|Hno];
    [|rewrite (plannerTest_unanswered _ _ _ _ _ Hno) in Hrun; discriminate].
  rewrite (plannerTest_answered _ _ _ _ _ Hyes) in Hrun.
  destruct (isCollisionFree is_free (result_path response)) as [[|]| | |] eqn:Hfree;
    cbn in Hrun; try discriminate.
  destruct (result_path response) as [ps] eqn:Hpath.
  destruct ps as [|first rest]; [discriminate|].
  rewrite isWithinTolerance_nonempty in Hrun. cbn in Hrun.
  inversion Hrun as [[Hends Hfound]]. subst found.
  split; [exact Hyes|]. split; [reflexivity|]. split.
  - apply (isCollisionFree_poses_true is_free). exact Hfree.
  - exists first, rest. split; [reflexivity | exact Hends].
Qed.

Lemma plannerTest_valid (is_free : Z -> Z -> bool)
    (response : PlannerResponse) (robot_position : Point)
    (goal : ComputePathToPoseCommand) (path : ComputePathToPoseResult) :
  fully_answered response ->
  valid_path is_free robot_position goal (result_path response) ->
  plannerTest is_free response robot_position goal path
  = Ok (true, result_path response).
Proof.
  intros Hyes (Hfree & first & rest & Hposes & Hends).
  rewrite (plannerTest_answered _ _ _ _ _ Hyes).
  unfold isCollisionFree.
  rewrite (proj2 (isCollisionFree_poses_true is_free _) Hfree). cbn [bind].
  destruct (result_path response) as [ps]. cbn [poses] in Hposes. subst ps.
  rewrite isWithinTolerance_nonempty, Hends. reflexivity.
Qed.

(** X6. [plannerTest] returns true exactly when the request is fully
    answered and the planner's path has at least one pose, has every pose on
    a free cell, starts at the robot position and ends at the goal; the path
    handed back is then the planner's.  When the request is not fully
    answered it returns false with the caller's path untouched and
    unchecked. *)
Theorem plannerTest_true_iff_valid_answer
    (is_free : Z -> Z -> bool) (response : PlannerResponse)
    (robot_position : Point) (goal : ComputePathToPoseCommand)
    (path found : ComputePathToPoseResult) :
  (plannerTest is_free response robot_position goal path = Ok (true, found) <->
   fully_answered response /\ found = result_path response /\
   valid_path is_free robot_position goal found) /\
  (~ fully_answered response ->
   plannerTest is_free response robot_position goal path = Ok (false, path)).
Proof.
  split; [split|].
  - apply plannerTest_true_inv.
  - intros (Hyes & -> & Hvalid). now apply plannerTest_valid.
  - apply plannerTest_unanswered.
Qed.

(** ** The random batch: drawing and counting *)

Section Drawing.

Variable is_free : Z -> Z -> bool.

(** The cell of a draw, as [generate_random] asks the costmap about it. *)
Definition draw_is_free (d : Z * Z) : bool :=
  is_free (to_unsigned (fst d)) (to_unsigned (snd d)).

Lemma generate_random_skips (skipped rest : list (Z * Z)) (d : Z * Z) :
  Forall (fun s => draw_is_free s = false) skipped ->
  draw_is_free d = true ->
  generate_random is_free (skipped ++ d :: rest) = Ok (d, rest).
Proof.
  intros Hskipped Hd.
  induction Hskipped as [|[sx sy] skipped Hs _ IH]; cbn [app generate_random].
  - destruct d as [dx dy]. unfold draw_is_free in Hd. cbn [fst snd] in Hd.
    rewrite Hd. reflexivity.
  - unfold draw_is_free in Hs. cbn [fst snd] in Hs. rewrite Hs. exact IH.
Qed.

Lemma generate_random_Ok_inv (ds rest : list (Z * Z)) (d : Z * Z) :
  generate_random is_free ds = Ok (d, rest) ->
  exists skipped,
    ds = skipped ++ d :: rest /\
    Forall (fun s => draw_is_free s = false) skipped /\
    draw_is_free d = true.
Proof.
  induction ds as [|[sx sy] ds IH]; cbn [generate_random]; [discriminate|].
  destruct (is_free (to_unsigned sx) (to_unsigned sy)) eqn:Hs.
  - intros Hrun. inversion Hrun; subst. exists []. repeat split; [constructor|].
    exact Hs.
  - intros Hrun. destruct (IH Hrun) as (skipped & -> & Hskipped & Hd).
    exists ((sx, sy) :: skipped). repeat split; [|exact Hd].
    constructor; [exact Hs | exact Hskipped].
Qed.

Lemma generate_random_Starved_iff (ds : list (Z * Z)) :
  generate_random is_free ds = Starved <->
  Forall (fun s => draw_is_free s = false) ds.
Proof.
  induction ds as [|[sx sy] ds IH]; cbn [generate_random].
  - split; [constructor | reflexivity].
  - unfold draw_is_free at 1. cbn [fst snd].
    destruct (is_free (to_unsigned sx) (to_unsigned sy)) eqn:Hs.
    + split; [discriminate|]. intros Hall. inversion Hall as [|? ? Hh _]; subst.
      unfold draw_is_free in Hh. cbn [fst snd] in Hh. congruence.
    + rewrite IH. split; [intros Hall; constructor; [exact Hs | exact Hall]|].
      intros Hall. now inversion Hall.
Qed.

End Drawing.

(** X7. [generate_random] returns the first draw whose cell the costmap marks
    free, having skipped only draws on cells that are not free, so the start
    and the goal of every random trial lie on free cells; it keeps drawing
    for as long as no draw is free. *)
Theorem generate_random_returns_first_free_draw
    (is_free : Z -> Z -> bool) (ds rest : list (Z * Z)) (d : Z * Z) :
  (generate_random is_free ds = Ok (d, rest) <->
   exists skipped,
     ds = skipped ++ d :: rest /\
     Forall (fun s => draw_is_free is_free s = false) skipped /\
     draw_is_free is_free d = true) /\
  (generate_random is_free ds = Starved <->
   Forall (fun s => draw_is_free is_free s = false) ds).
Proof.
  split; [split|].
  - apply generate_random_Ok_inv.
  - intros (skipped & -> & Hskipped & Hd). now apply generate_random_skips.
  - apply generate_random_Starved_iff.
Qed.

(** X8. With an acceptable ratio that is not below 0 and is below 1, a
    batch of [0 < number_tests < 2^32] trials on a set, loaded costmap, with
    the planner running, returns false exactly when every one of the trials
    failed: any smaller number of failures passes. *)
Theorem defaultPlannerRandomTests_fails_only_when_all_trials_fail
    (is_free : Z -> Z -> bool) (env : Environment) (number_tests : Z)
    (acceptable_fail_ratio : float) (num_fail : Z)
    (Hrange : 0 < number_tests < 2 ^ 32)
    (Hnonneg : fp_gt (float_of_Z 0) acceptable_fail_ratio = false)
    (Hbelow1 : fp_gt (float_of_Z 1) acceptable_fail_ratio = true)
    (Hrunning : planner_running env = true)
    (Hcount : random_tests_loop is_free (Z.to_nat number_tests) (draws env)
                (responses env) 0 (mkPath []) = Ok num_fail) :
  0 <= num_fail <= number_tests /\
  defaultPlannerRandomTests is_free (mkTester true false) env number_tests
    acceptable_fail_ratio = Ok (negb (num_fail =? number_tests)).
Proof.
  assert (Hb : 0 <= num_fail <= number_tests).
  { apply random_tests_loop_bounds in Hcount; rewrite ?Z2Nat.id in *; lia. }
  split; [exact Hb|].
  unfold defaultPlannerRandomTests, waitForPlanner. cbn [costmap_set_ using_fake_costmap_ negb].
  rewrite Hrunning. cbn [negb bind]. rewrite Hcount. cbn [bind].
  unfold fail_ratio_exceeded.
  destruct (Z.eqb_spec number_tests 0) as [|_]; [lia|]. cbn [bind].
  rewrite unsigned_quotient by lia.
  destruct (Z.eqb_spec num_fail number_tests) as [_|_]; cbn [negb].
  - rewrite Hbelow1. reflexivity.
  - rewrite Hnonneg. reflexivity.
Qed.

(** X8 at the batch of ten trials of which five fail, with ratio 0.1. *)
Lemma defaultPlannerRandomTests_fails_only_when_all_trials_fail_witness :
  defaultPlannerRandomTests (fun _ _ => true) (mkTester true false)
    half_failing 10 ratio_0_1 = Ok (negb (5 =? 10)).
Proof.
  refine (proj2
    (defaultPlannerRandomTests_fails_only_when_all_trials_fail
       (fun _ _ => true) half_failing 10 ratio_0_1 5 _ _ _ _ _)).
  - lia.
  - vm_compute. reflexivity.
  - vm_compute. reflexivity.
  - reflexivity.
  - vm_compute. reflexivity.
Defined.

End PlannerTesterExtras.

(** * Properties of the planner tester's set-up *)

Module PlannerTesterSetupProofs.
Import FP Rclcpp PlannerTesterSetup.

Section SetupProofs.

Variable OccupancyGrid : Type.
Variable TestCostmap : Type.
Variable open_space : TestCostmap.

(** The fields are consistent: a costmap is held and flagged as set, the
    costmap server runs, the fake flag says whether the costmap came from a
    test costmap, a costmap from a static map came from the map held, and
    [map_set_] is raised over a map only. *)
Definition well_set_up (self : Fields OccupancyGrid TestCostmap) : Prop :=
  costmap_set_ self = true /\
  costmap_server_running_ self = true /\
  (map_set_ self = true -> map_ self <> None) /\
  match costmap_ self with
  | Some (of_test_costmap _) => using_fake_costmap_ self = true
  | Some (of_static_map map) =>
      using_fake_costmap_ self = false /\ map_set_ self = true /\
      map_ self = Some map
  | None => False
  end.

Lemma PlannerTester_new_well_set_up : well_set_up (PlannerTester_new open_space).
Proof. repeat split. discriminate. Qed.

Lemma loadSimpleCostmap_well_set_up (t : TestCostmap) (self : Fields OccupancyGrid TestCostmap) :
  well_set_up self -> well_set_up (loadSimpleCostmap t self).
Proof.
  intros (_ & Hserver & Hmap & _). unfold well_set_up, loadSimpleCostmap. cbn.
  repeat split; assumption.
Qed.

(** What [loadDefaultMap] comes to, case by case. *)
Lemma loadDefaultMap_cases (TEST_MAP : option string)
    (loadMapFromFile : string -> OccupancyGrid + string) (self : Fields OccupancyGrid TestCostmap) :
  (exists file_path map,
     TEST_MAP = Some file_path /\ loadMapFromFile file_path = inl map /\
     loadDefaultMap TEST_MAP loadMapFromFile self
     = (Ok tt,
        mkFields (Some map) (Some (of_static_map map)) true true false
          (costmap_server_running_ self))) \/
  (exists what,
     (TEST_MAP = None \/
      exists file_path,
        TEST_MAP = Some file_path /\ loadMapFromFile file_path = inr what) /\
     loadDefaultMap TEST_MAP loadMapFromFile self = (Thrown what, self)).
Proof.
  unfold loadDefaultMap. destruct TEST_MAP as [file_path|].
  - destruct (loadMapFromFile file_path) as [map|what] eqn:Hload.
    + left. exists file_path, map. repeat split. exact Hload.
    + right. exists what. split; [|reflexivity].
      right. exists file_path. split; [reflexivity | exact Hload].
  - right. eexists. split; [left; reflexivity | reflexivity].
Qed.

Lemma setup_call_well_set_up (c : SetupCall OccupancyGrid TestCostmap) (self : Fields OccupancyGrid TestCostmap) :
  well_set_up self ->
  well_set_up (snd (setup_call c self)) /\
  (fst (setup_call c self) = Ok tt \/
   exists what, fst (setup_call c self) = Thrown what).
Proof.
  intros Hinv. destruct c as [TEST_MAP loadMapFromFile|t]; cbn [setup_call].
  - destruct (loadDefaultMap_cases TEST_MAP loadMapFromFile self)
      as [(file_path & map & _ & _ & ->)|(what & _ & ->)]; cbn [fst snd].
    + split; [|now left]. destruct Hinv as (_ & Hserver & _).
      unfold well_set_up. cbn. repeat split; try assumption. discriminate.
    + split; [exact Hinv|]. right. now exists what.
  - cbn [fst snd]. split; [|now left]. now apply loadSimpleCostmap_well_set_up.
Qed.

Lemma setup_calls_well_set_up (cs : list (SetupCall OccupancyGrid TestCostmap)) :
  forall self : Fields OccupancyGrid TestCostmap,
    well_set_up self ->
    well_set_up (snd (setup_calls cs self)) /\
    Forall (fun outcome => outcome = Ok tt \/ exists what, outcome = Thrown what)
      (fst (setup_calls cs self)).
Proof.
  induction cs as [|c cs IH]; intros self Hinv; cbn [setup_calls].
  - split; [exact Hinv | constructor].
  - destruct (setup_call_well_set_up c self Hinv) as [Hnext Hout].
    destruct (setup_call c self) as [outcome self1]. cbn [fst snd] in *.
    destruct (IH self1 Hnext) as [Hend Houts].
    destruct (setup_calls cs self1) as [outcomes self2]. cbn [fst snd] in *.
    split; [exact Hend | constructor; assumption].
Qed.

(** X9. From the constructor on, through any sequence of [loadDefaultMap]
    and [loadSimpleCostmap] calls, failing ones included, the tester holds a
    costmap with [costmap_set_] raised and the costmap server running,
    [using_fake_costmap_] is true exactly when the costmap held was made from
    a test costmap, and a costmap made from a static map was made from the
    map held; no call dereferences a null [map_]: each returns or throws. *)
Theorem setup_calls_keep_tester_consistent (cs : list (SetupCall OccupancyGrid TestCostmap)) :
  well_set_up (snd (setup_calls cs (PlannerTester_new open_space))) /\
  (using_fake_costmap_ (snd (setup_calls cs (PlannerTester_new open_space))) = true <->
   exists t,
     costmap_ (snd (setup_calls cs (PlannerTester_new open_space)))
     = Some (of_test_costmap t)) /\
  Forall (fun outcome => outcome = Ok tt \/ exists what, outcome = Thrown what)
    (fst (setup_calls cs (PlannerTester_new open_space))).
Proof.
  destruct (setup_calls_well_set_up cs _ PlannerTester_new_well_set_up)
    as [Hinv Houts].
  split; [exact Hinv|]. split; [|exact Houts].
  destruct Hinv as (_ & _ & _ & Hcostmap).
  destruct (costmap_ (snd (setup_calls cs (PlannerTester_new open_space))))
    as [[t|map]|]; [| |contradiction].
  - split; [intros _; now exists t | intros _; exact Hcostmap].
  - destruct Hcostmap as (Hfake & _). rewrite Hfake.
    split; [discriminate | intros (t & Ht); discriminate].
Qed.

(** X10. [loadDefaultMap] is all or nothing: it returns exactly when
    [TEST_MAP] is set and the loader returns a map, and then holds that map
    and a costmap made from it, with [map_set_] and [costmap_set_] raised and
    [using_fake_costmap_] lowered; otherwise it throws, with the loader's
    message when the loader threw, and leaves every field as it was. *)
Theorem loadDefaultMap_all_or_nothing (TEST_MAP : option string)
    (loadMapFromFile : string -> OccupancyGrid + string) (self : Fields OccupancyGrid TestCostmap) :
  (fst (loadDefaultMap TEST_MAP loadMapFromFile self) = Ok tt <->
   exists file_path map,
     TEST_MAP = Some file_path /\ loadMapFromFile file_path = inl map) /\
  (forall file_path map,
     TEST_MAP = Some file_path -> loadMapFromFile file_path = inl map ->
     snd (loadDefaultMap TEST_MAP loadMapFromFile self)
     = mkFields (Some map) (Some (of_static_map map)) true true false
         (costmap_server_running_ self)) /\
  (fst (loadDefaultMap TEST_MAP loadMapFromFile self) <> Ok tt ->
   snd (loadDefaultMap TEST_MAP loadMapFromFile self) = self /\
   exists what, fst (loadDefaultMap TEST_MAP loadMapFromFile self) = Thrown what) /\
  (forall file_path what,
     TEST_MAP = Some file_path -> loadMapFromFile file_path = inr what ->
     fst (loadDefaultMap TEST_MAP loadMapFromFile self) = Thrown what).
Proof.
  destruct (loadDefaultMap_cases TEST_MAP loadMapFromFile self)
    as [(file_path & map & Henv & Hload & Hrun)
       |(what & [Henv|(file_path & Henv & Hload)] & Hrun)];
    rewrite Hrun; cbn [fst snd].
  - split; [|split; [|split]].
    + split; [intros _; now exists file_path, map | reflexivity].
    + intros f m Hf Hm. congruence.
    + intros Hne. now contradiction Hne.
    + intros f w Hf Hw. congruence.
  - split; [|split; [|split]].
    + split; [discriminate | intros (f & m & Hf & _); congruence].
    + intros f m Hf _. congruence.
    + intros _. split; [reflexivity | now exists what].
    + intros f w Hf _. congruence.
  - split; [|split; [|split]].
    + split; [discriminate | intros (f & m & Hf & Hm); congruence].
    + intros f m Hf Hm. congruence.
    + intros _. split; [reflexivity | now exists what].
    + intros f w Hf Hw. congruence.
Qed.

(** X11. After the constructor and any set-up calls, whether the random
    batch runs depends on the costmap held alone: with a costmap made from a
    test costmap, as the constructor leaves it, [defaultPlannerRandomTests]
    returns false without waiting for the planner or drawing anything; with a
    costmap made from a static map it runs the batch.  The guard on
    [costmap_set_] is never what stops it. *)
Theorem defaultPlannerRandomTests_refuses_test_costmaps
    (is_free : Z -> Z -> bool) (cs : list (SetupCall OccupancyGrid TestCostmap))
    (env : PlannerTester.Environment) (number_tests : Z)
    (acceptable_fail_ratio : float) :
  PlannerTester.defaultPlannerRandomTests is_free
    (tester_of (snd (setup_calls cs (PlannerTester_new open_space))))
    env number_tests acceptable_fail_ratio
  = match costmap_ (snd (setup_calls cs (PlannerTester_new open_space))) with
    | Some (of_static_map _) =>
        PlannerTester.defaultPlannerRandomTests is_free
          (PlannerTester.mkTester true false) env number_tests
          acceptable_fail_ratio
    | _ => Ok false
    end /\
  PlannerTester.defaultPlannerRandomTests is_free
    (tester_of (PlannerTester_new (OccupancyGrid := OccupancyGrid) open_space))
    env number_tests acceptable_fail_ratio = Ok false.
Proof.
  split; [|reflexivity].
  destruct (setup_calls_well_set_up cs _ PlannerTester_new_well_set_up)
    as [(Hset & _ & _ & Hcostmap) _].
  unfold tester_of. rewrite Hset.
  destruct (costmap_ (snd (setup_calls cs (PlannerTester_new open_space))))
    as [[t|map]|]; [| |contradiction].
  - rewrite Hcostmap. reflexivity.
  - destruct Hcostmap as (-> & _). reflexivity.
Qed.

End SetupProofs.

(** ** The default test *)

Import PlannerTesterExtras.

(** The start and the goal [defaultPlannerTest] asks for: (1, 1) to (8, 8)
    on a fake costmap, (390, 10) to (10, 390) on the loaded map. *)
Definition default_start (self : PlannerTester.Tester) : PlannerTester.Point :=
  if PlannerTester.using_fake_costmap_ self
  then PlannerTester.mkPoint (double_of_Z 1) (double_of_Z 1)
  else PlannerTester.mkPoint (double_of_Z 390) (double_of_Z 10).

Definition default_goal (self : PlannerTester.Tester)
  : PlannerTester.ComputePathToPoseCommand :=
  PlannerTester.mkPoseStamped (PlannerTester.mkPose
    (if PlannerTester.using_fake_costmap_ self
     then PlannerTester.mkPoint (double_of_Z 8) (double_of_Z 8)
     else PlannerTester.mkPoint (double_of_Z 10) (double_of_Z 390))).

Lemma defaultPlannerTest_running (is_free : Z -> Z -> bool)
    (self : PlannerTester.Tester) (env : PlannerTester.Environment)
    (path : PlannerTester.ComputePathToPoseResult) (tolerance : double) :
  PlannerTester.costmap_set_ self = true ->
  PlannerTester.planner_running env = true ->
  defaultPlannerTest is_free self env path tolerance =
  match PlannerTester.responses env with
  | [] => Starved
  | response :: _ =>
      PlannerTester.plannerTest is_free response (default_start self)
        (default_goal self) path
  end.
Proof.
  intros Hset Hrun. unfold defaultPlannerTest, PlannerTester.waitForPlanner,
    default_start, default_goal.
  rewrite Hset, Hrun. cbn [negb bind].
  destruct (PlannerTester.using_fake_costmap_ self); reflexivity.
Qed.

(** X12. [defaultPlannerTest] returns false at once when no costmap is set,
    without waiting for the planner, and throws when the costmap is set and
    the planner does not show up.  It returns true exactly when the costmap
    is set, the planner runs, the request is fully answered and the planner's
    path has every pose on a free cell, starts at the default start and ends
    at the default goal of the costmap in use.  The tolerance passed in
    changes nothing. *)
Theorem defaultPlannerTest_true_iff_valid_default_path
    (is_free : Z -> Z -> bool)
    (self : PlannerTester.Tester) (env : PlannerTester.Environment)
    (path found : PlannerTester.ComputePathToPoseResult)
    (tolerance tolerance' : double) :
  (PlannerTester.costmap_set_ self = false ->
   defaultPlannerTest is_free self env path tolerance = Ok (false, path)) /\
  (PlannerTester.costmap_set_ self = true ->
   PlannerTester.planner_running env = false ->
   defaultPlannerTest is_free self env path tolerance
   = Thrown "Planner not running"%string) /\
  (defaultPlannerTest is_free self env path tolerance = Ok (true, found) <->
   PlannerTester.costmap_set_ self = true /\
   PlannerTester.planner_running env = true /\
   exists response rest,
     PlannerTester.responses env = response :: rest /\
     fully_answered response /\
     found = PlannerTester.result_path response /\
     valid_path is_free (default_start self) (default_goal self) found) /\
  defaultPlannerTest is_free self env path tolerance'
  = defaultPlannerTest is_free self env path tolerance.
Proof.
  split; [|split; [|split]].
  - intros Hset. unfold defaultPlannerTest. rewrite Hset. reflexivity.
  - intros Hset Hrun. unfold defaultPlannerTest, PlannerTester.waitForPlanner.
    rewrite Hset, Hrun. reflexivity.
  - destruct (PlannerTester.costmap_set_ self) eqn:Hset.
    + destruct (PlannerTester.planner_running env) eqn:Hrun.
      * rewrite (defaultPlannerTest_running _ _ _ _ _ Hset Hrun).
        destruct (PlannerTester.responses env) as [|response rest].
        -- split; [discriminate|].
           intros (_ & _ & r & rs & Hrs & _). discriminate.
        -- split.
           ++ intros Hpass. apply plannerTest_true_inv in Hpass.
              destruct Hpass as (Hyes & Hfound & Hvalid).
              repeat split. exists response, rest. tauto.
           ++ intros (_ & _ & r & rs & Hrs & Hyes & -> & Hvalid).
              inversion Hrs; subst. now apply plannerTest_valid.
      * unfold defaultPlannerTest, PlannerTester.waitForPlanner.
        rewrite Hset, Hrun. cbn.
        split; [discriminate | intros (_ & Hr & _); discriminate].
    + unfold defaultPlannerTest. rewrite Hset. cbn.
      split; [discriminate | intros (Hs & _); discriminate].
  - reflexivity.
Qed.

End PlannerTesterSetupProofs.

(** * Further properties of the recovery test *)

Module RecoveryTestExtras.
Import Rclcpp RecoveryTest RecoveryTestCases RecoveryTestProofs.
Local Open Scope string_scope.

(** ** The dummy behaviour, command by command *)

(** The two commands on which [onRun] goes on. *)
Definition continuing (command : string) : Prop :=
  command = "Testing success" \/ command = "Testing failure on run".

Lemma onRun_cases (command : string) (now : time_point) (self : DummyRecovery) :
  (continuing command /\
   onRun command now self = (SUCCEEDED, mkDummyRecovery true command now)) \/
  (~ continuing command /\
   onRun command now self = (FAILED, mkDummyRecovery false command now)).
Proof.
  unfold onRun, continuing.
  cbn [set_initialized_ set_command_ set_start_time_ command_ start_time_
       initialized_].
  destruct (String.eqb_spec command "Testing success") as [Hs|Hs];
    [left; split; [now left | reflexivity]|].
  destruct (String.eqb_spec command "Testing failure on run") as [Hr|Hr];
    [left; split; [now right | reflexivity]|].
  right. split; [tauto | reflexivity].
Qed.

Lemma onCycleUpdate_cases (now : time_point) (self : DummyRecovery) :
  (command_ self = "Testing success" /\ initialized_ self = true /\
   onCycleUpdate now self
   = if seconds 5 <=? now - start_time_ self then SUCCEEDED else RUNNING) \/
  ((command_ self <> "Testing success" \/ initialized_ self = false) /\
   onCycleUpdate now self = FAILED).
Proof.
  unfold onCycleUpdate.
  destruct (String.eqb_spec (command_ self) "Testing success") as [Hs|Hs];
    cbn [negb orb]; [|right; split; [now left | reflexivity]].
  destruct (initialized_ self); cbn [negb];
    [left; repeat split; exact Hs | right; split; [now right | reflexivity]].
Qed.

(** X13. [onRun] returns SUCCEEDED for the commands "Testing success" and
    "Testing failure on run" and FAILED for every other command, never
    RUNNING; it leaves [initialized_] true exactly when it returns SUCCEEDED,
    with the command and the clock reading stored.  Of all commands only
    "Testing success" gives a cyclic update that does not fail. *)
Theorem onRun_outcome_by_command
    (command : string) (now clock : time_point) (self : DummyRecovery) :
  (fst (onRun command now self) = SUCCEEDED <-> continuing command) /\
  (fst (onRun command now self) = FAILED <-> ~ continuing command) /\
  (initialized_ (snd (onRun command now self)) = true <->
   fst (onRun command now self) = SUCCEEDED) /\
  command_ (snd (onRun command now self)) = command /\
  start_time_ (snd (onRun command now self)) = now /\
  (onCycleUpdate clock (snd (onRun command now self)) <> FAILED <->
   command = "Testing success").
Proof.
  destruct (onRun_cases command now self) as [[Hc ->]|[Hc ->]]; cbn [fst snd].
  - repeat split; try tauto; try discriminate.
    + intros Hnf.
      destruct (onCycleUpdate_cases clock (mkDummyRecovery true command now))
        as [(Hs & _)|(_ & Hf)]; [exact Hs | contradiction].
    + intros ->. rewrite onCycleUpdate_Testing_success.
      destruct (seconds 5 <=? clock - now); discriminate.
  - repeat split; try tauto; try discriminate.
    + intros Hnf.
      destruct (onCycleUpdate_cases clock (mkDummyRecovery false command now))
        as [(_ & Hi & _)|(_ & Hf)]; [discriminate | contradiction].
    + intros ->. exfalso. apply Hc. now left.
Qed.

(** X14. Once the motion is complete it stays complete: for a later clock
    reading [onCycleUpdate] returns SUCCEEDED wherever it did for an earlier
    one, returns RUNNING for the earlier reading wherever it does for the
    later, and fails for both or for neither. *)
Theorem onCycleUpdate_completion_is_stable
    (self : DummyRecovery) (earlier later : time_point)
    (Horder : earlier <= later) :
  (onCycleUpdate earlier self = SUCCEEDED -> onCycleUpdate later self = SUCCEEDED) /\
  (onCycleUpdate later self = RUNNING -> onCycleUpdate earlier self = RUNNING) /\
  (onCycleUpdate earlier self = FAILED <-> onCycleUpdate later self = FAILED).
Proof.
  destruct (onCycleUpdate_cases earlier self) as [(Hs & Hi & He)|(Hbad & He)];
    destruct (onCycleUpdate_cases later self) as [(Hs' & Hi' & Hl)|(Hbad' & Hl)];
    rewrite He, Hl.
  - destruct (Z.leb_spec (seconds 5) (earlier - start_time_ self));
      destruct (Z.leb_spec (seconds 5) (later - start_time_ self));
      repeat split; try discriminate; try reflexivity; lia.
  - exfalso. destruct Hbad'; congruence.
  - exfalso. destruct Hbad; congruence.
  - repeat split; try discriminate; reflexivity.
Qed.

(** X14 on a behaviour started at 1 s, read at 6 s and at 7 s. *)
Lemma onCycleUpdate_completion_is_stable_witness :
  seconds 6 <= seconds 7 /\
  onCycleUpdate (seconds 7) (mkDummyRecovery true "Testing success" (seconds 1))
  = SUCCEEDED.
Proof.
  assert (Horder : seconds 6 <= seconds 7) by (vm_compute; discriminate).
  split; [exact Horder|].
  exact (proj1 (onCycleUpdate_completion_is_stable
    (mkDummyRecovery true "Testing success" (seconds 1))
    (seconds 6) (seconds 7) Horder) eq_refl).
Defined.

(** ** Outcomes without an accepted goal *)

Lemma getOutcome_null_handle (fuel : nat) (spins : nat -> FutureReturnCode)
    (delivered : ResultCode) (recovery : DummyRecovery) :
  getOutcome fuel spins delivered (mkFixture recovery None) = Undefined.
Proof. reflexivity. Qed.

(** X15. After a [sendCommand] that returned false, [getOutcome] is undefined
    when the server had declined the goal, the goal handle being null then;
    when the server was not ready or the send did not complete, the fixture
    is as before the call, so [getOutcome] does what it did before it:
    undefined on a fresh fixture, and the earlier goal's outcome on a fixture
    that holds an earlier handle. *)
Theorem getOutcome_after_failed_sendCommand
    (fuel : nat) (spins : nat -> FutureReturnCode) (delivered : ResultCode)
    (a : SendAnswers) (command : string) (self : Fixture)
    (Hfailed : fst (sendCommand a command self) = false) :
  getOutcome fuel spins delivered (snd (sendCommand a command self))
  = (if server_ready a && FutureReturnCode_eqb (goal_spin a) SUCCESS
     then Undefined
     else getOutcome fuel spins delivered self) /\
  getOutcome fuel spins delivered SetUp = Undefined.
Proof.
  split; [|reflexivity]. unfold sendCommand in *.
  destruct (server_ready a); cbn [negb andb] in *; [|reflexivity].
  destruct (FutureReturnCode_eqb (goal_spin a) SUCCESS); cbn [negb] in *;
    [|reflexivity].
  cbn [goal_handle_] in *.
  destruct (future_goal a); cbn [fst snd] in *; [discriminate|].
  apply getOutcome_null_handle.
Qed.

(** X15 at a declined goal on a fixture that holds an earlier handle. *)
Lemma getOutcome_after_failed_sendCommand_witness :
  getOutcome 1 (complete_at 0) RC_SUCCEEDED
    (snd (sendCommand rejected "Testing success" with_handle))
  = Undefined.
Proof.
  exact (proj1 (getOutcome_after_failed_sendCommand 1 (complete_at 0)
                  RC_SUCCEEDED rejected "Testing success" with_handle eq_refl)).
Defined.

(** ** The failure-on-init test *)

Lemma execute_not_continuing (command : string) (now : time_point)
    (ticks : list Tick) (self : DummyRecovery) :
  ~ continuing command ->
  execute command now ticks self
  = (Ok RC_ABORTED, mkDummyRecovery false command now).
Proof.
  intros Hc. unfold execute.
  destruct (onRun_cases command now self) as [[Hyes _]|[_ ->]];
    [contradiction | reflexivity].
Qed.

(** X16. For "Testing failure on init", and for every command other than
    the two [onRun] goes on with, [onRun] returns FAILED with the behaviour
    not initialized, the goal ends failed whatever the ticks are (none, or
    with cancellation requested), and [getOutcome] yields FAILED; the
    expectation of [testingFailureOnInit] holds. *)
Theorem testingFailureOnInit_fails_before_any_cycle
    (fuel : nat) (xch : Exchange) (command : string) (self : Fixture)
    (Haccepted : accepted (answers xch))
    (Harrives : arrives_within fuel (result_spins xch))
    (Hcommand : ~ continuing command) :
  onRun command (run_clock xch) (recovery_ self)
  = (FAILED, mkDummyRecovery false command (run_clock xch)) /\
  (exists handle,
     sendCommand_getOutcome fuel xch command self
     = Ok (FAILED,
           mkFixture (mkDummyRecovery false command (run_clock xch))
             (Some handle))) /\
  testingFailureOnInit fuel xch = Ok true.
Proof.
  split; [|split].
  - destruct (onRun_cases command (run_clock xch) (recovery_ self))
      as [[Hyes _]|[_ Hrun]]; [contradiction | exact Hrun].
  - destruct (sendCommand_getOutcome_served fuel xch command self _ _
                Haccepted Harrives
                (execute_not_continuing command _ _ _ Hcommand))
      as (handle & _ & Hout).
    exists handle. exact Hout.
  - unfold testingFailureOnInit.
    assert (Hinit : ~ continuing "Testing failure on init")
      by (intros [H|H]; discriminate).
    destruct (sendCommand_getOutcome_served fuel xch "Testing failure on init"
                SetUp _ _ Haccepted Harrives
                (execute_not_continuing _ _ _ _ Hinit))
      as (handle & _ & Hout).
    rewrite Hout. reflexivity.
Qed.

(** An exchange with no tick at all. *)
Definition no_tick_exchange : Exchange :=
  mkExchange accepting 0 [] (complete_at 0).

(** X16 at an exchange without ticks, for the command "Stop". *)
Lemma testingFailureOnInit_fails_before_any_cycle_witness :
  testingFailureOnInit 1 no_tick_exchange = Ok true.
Proof.
  refine (proj2 (proj2
    (testingFailureOnInit_fails_before_any_cycle 1 no_tick_exchange "Stop"
       SetUp _ _ _))).
  - repeat split; discriminate.
  - exists 0%nat. split; [lia | reflexivity].
  - intros [H|H]; discriminate.
Defined.

(** ** The assertion before the outcome *)

Lemma accepted_dec (a : SendAnswers) : accepted a \/ ~ accepted a.
Proof.
  unfold accepted.
  destruct (server_ready a), (goal_spin a), (future_goal a);
    intuition congruence.
Qed.

Lemma sendCommand_not_accepted (a : SendAnswers) (command : string)
    (self : Fixture) :
  ~ accepted a -> fst (sendCommand a command self) = false.
Proof.
  intros Hno. unfold sendCommand, accepted in *.
  destruct (server_ready a); cbn; [|reflexivity].
  destruct (goal_spin a); cbn; try reflexivity.
  destruct (future_goal a); cbn; [|reflexivity].
  exfalso. apply Hno. repeat split. discriminate.
Qed.

Lemma cyclic_phase_cases (ticks : list Tick) (self : DummyRecovery) :
  (exists code, cyclic_phase ticks self = Ok code) \/
  cyclic_phase ticks self = Starved.
Proof.
  induction ticks as [|t ticks IH]; cbn [cyclic_phase]; [now right|].
  destruct (cancel_requested t); [left; now eexists|].
  destruct (onCycleUpdate (clock t) self);
    [left; now eexists | left; now eexists | exact IH].
Qed.

Lemma execute_cases (command : string) (now : time_point)
    (ticks : list Tick) (self : DummyRecovery) :
  (exists code, fst (execute command now ticks self) = Ok code) \/
  fst (execute command now ticks self) = Starved.
Proof.
  unfold execute.
  destruct (onRun_cases command now self) as [[_ ->]|[_ ->]]; cbn [fst].
  - apply cyclic_phase_cases.
  - left. now eexists.
Qed.

Lemma getOutcome_with_handle_cases (fuel : nat)
    (spins : nat -> FutureReturnCode) (delivered : ResultCode)
    (recovery : DummyRecovery) (handle : ClientGoalHandle) :
  (exists outcome,
     getOutcome fuel spins delivered (mkFixture recovery (Some handle))
     = Ok outcome) \/
  getOutcome fuel spins delivered (mkFixture recovery (Some handle)) = Starved.
Proof.
  unfold getOutcome, getResult. cbn [goal_handle_].
  destruct (getResult_loop_cases fuel spins 0) as [-> | ->]; cbn [bind];
    [|now right].
  left. destruct (ResultCode_eqb delivered RC_SUCCEEDED); now eexists.
Qed.

(** What a test line pair comes to: with the goal accepted, an outcome or a
    wait that has not ended; without, the failed assertion. *)
Lemma sendCommand_getOutcome_cases (fuel : nat) (xch : Exchange)
    (command : string) (self : Fixture) :
  (accepted (answers xch) /\
   ((exists outcome fixture,
       sendCommand_getOutcome fuel xch command self = Ok (outcome, fixture)) \/
    sendCommand_getOutcome fuel xch command self = Starved)) \/
  (~ accepted (answers xch) /\
   sendCommand_getOutcome fuel xch command self
   = Thrown "ASSERT_TRUE(sendCommand(command))").
Proof.
  destruct (accepted_dec (answers xch)) as [Hyes|Hno].
  - left. split; [exact Hyes|].
    destruct (sendCommand_accepted _ command self Hyes) as (handle & _ & Hsend).
    unfold sendCommand_getOutcome. rewrite Hsend.
    cbn [negb recovery_ goal_handle_].
    destruct (execute_cases command (run_clock xch) (ticks xch) (recovery_ self))
      as [(code & Hexec)|Hexec];
      destruct (execute command (run_clock xch) (ticks xch) (recovery_ self))
        as [served recovery]; cbn [fst] in Hexec; subst served; cbn [bind];
      [|now right].
    destruct (getOutcome_with_handle_cases fuel (result_spins xch) code
                recovery handle) as [(outcome & ->)| ->]; cbn [bind];
      [left; now eexists; eexists | now right].
  - right. split; [exact Hno|].
    pose proof (sendCommand_not_accepted _ command self Hno) as Hsend.
    unfold sendCommand_getOutcome.
    destruct (sendCommand (answers xch) command self) as [sent self'].
    cbn [fst] in Hsend. subst sent. reflexivity.
Qed.

(** X20. In the tests [getOutcome] never meets a null goal handle: a
    [sendCommand] that fails stops the test at its [ASSERT_TRUE], and that
    failed assertion, raised exactly when the goal was not accepted, is the
    only way a test leaves other than by its outcome; none of the four test
    bodies is undefined. *)
Theorem tests_never_read_a_null_goal_handle
    (fuel : nat) (xch second : Exchange) (command : string) (self : Fixture) :
  sendCommand_getOutcome fuel xch command self <> Undefined /\
  ((exists what, sendCommand_getOutcome fuel xch command self = Thrown what) <->
   ~ accepted (answers xch)) /\
  testingSuccess fuel xch <> Undefined /\
  testingFailureOnRun fuel xch <> Undefined /\
  testingFailureOnInit fuel xch <> Undefined /\
  testingSequentialFailures fuel xch second <> Undefined.
Proof.
  assert (Hline : forall x c s, sendCommand_getOutcome fuel x c s <> Undefined).
  { intros x c s.
    destruct (sendCommand_getOutcome_cases fuel x c s)
      as [(_ & [(o & f & ->)| ->])|(_ & ->)]; discriminate. }
  assert (Hbody : forall x c (k : Status * Fixture -> Result bool),
            (forall p, k p <> Undefined) ->
            bind (sendCommand_getOutcome fuel x c SetUp) k <> Undefined).
  { intros x c k Hk. pose proof (Hline x c SetUp) as Hl.
    destruct (sendCommand_getOutcome fuel x c SetUp); cbn [bind];
      [apply Hk | discriminate | contradiction | discriminate]. }
  split; [apply Hline|]. split; [|repeat split].
  - destruct (sendCommand_getOutcome_cases fuel xch command self)
      as [(Hyes & [(o & f & ->)| ->])|(Hno & ->)].
    + split; [intros (w & Hw); discriminate | tauto].
    + split; [intros (w & Hw); discriminate | tauto].
    + split; [intros _; exact Hno | intros _; now eexists].
  - apply Hbody. intros [o f]. discriminate.
  - apply Hbody. intros [o f]. discriminate.
  - apply Hbody. intros [o f]. discriminate.
  - unfold testingSequentialFailures. pose proof (Hline xch "Testing failure on init" SetUp) as H1.
    destruct (sendCommand_getOutcome fuel xch "Testing failure on init" SetUp)
      as [[o1 f1]| | |]; cbn [bind]; try discriminate; [|contradiction].
    pose proof (Hline second "Testing failure on run" f1) as H2.
    destruct (sendCommand_getOutcome fuel second "Testing failure on run" f1)
      as [[o2 f2]| | |]; cbn [bind]; try discriminate. contradiction.
Qed.

End RecoveryTestExtras.

(** * Integer coordinates as doubles *)

Module FPProofs.
Import FP Rclcpp PlannerTester PlannerTesterProofs PlannerTesterExtras.

Lemma digits2_pos_size (m : positive) : digits2_pos m = Pos.size m.
Proof. induction m; cbn; congruence. Qed.

Lemma digits2_pos_shift (m k : positive) :
  digits2_pos (Pos.iter xO m k) = (digits2_pos m + k)%positive.
Proof.
  induction k as [|k IH] using Pos.peano_ind.
  - cbn. lia.
  - rewrite Pos.iter_succ. cbn [digits2_pos]. rewrite IH. lia.
Qed.

Lemma Zpos_shift (m k : positive) :
  Zpos (Pos.iter xO m k) = Zpos m * 2 ^ Zpos k.
Proof.
  induction k as [|k IH] using Pos.peano_ind.
  - cbn. lia.
  - rewrite Pos.iter_succ, Pos2Z.inj_xO, IH, Pos2Z.inj_succ, Z.pow_succ_r by lia.
    lia.
Qed.

Lemma digits2_pos_bound (m : positive) (n : Z) :
  0 <= n -> Zpos m < 2 ^ n -> Zpos (digits2_pos m) <= n.
Proof.
  intros Hn Hm. rewrite digits2_pos_size.
  pose proof (Pos.size_le m) as Hle.
  assert (H2 : 2 ^ Zpos (Pos.size m) <= 2 * Zpos m).
  { change (2 * Zpos m) with (Zpos m~0). rewrite <- Pos2Z.inj_pow. lia. }
  destruct (Z.le_gt_cases (Zpos (Pos.size m)) n) as [|Hgt]; [assumption|].
  exfalso.
  assert (2 ^ (n + 1) <= 2 ^ Zpos (Pos.size m)) by (apply Z.pow_le_mono_r; lia).
  rewrite Z.pow_add_r, Z.pow_1_r in * by lia. lia.
Qed.

(** A mantissa of exactly 53 digits at an exponent in range is kept as it is. *)
Lemma binary_round_aux_exact (s : bool) (M : positive) (e : Z) :
  Zpos (digits2_pos M) = 53 -> -1074 <= e <= 971 ->
  binary_round_aux 53 1024 s (Zpos M) e loc_Exact = S754_finite s M e.
Proof.
  intros Hd He. unfold binary_round_aux, shr_fexp, Zdigits2.
  cbn [shr_record_of_loc loc_of_shr_record shr_m shr_r shr_s round_nearest_even].
  rewrite Hd.
  replace (fexp 53 1024 (53 + e) - e) with 0
    by (unfold fexp, emin; lia).
  cbn [shr shr_m loc_of_shr_record round_nearest_even shr_r shr_s].
  unfold Zdigits2. rewrite Hd.
  replace (fexp 53 1024 (53 + e) - e) with 0
    by (unfold fexp, emin; lia).
  cbn [shr shr_m].
  destruct (Z.leb_spec e (1024 - 53)); [reflexivity | lia].
Qed.

Lemma double_of_Z_pos (m : positive) :
  Zpos m < 2 ^ 53 ->
  exists (M : positive) (k : Z),
    double_of_Z (Zpos m) = S754_finite false M (- k) /\
    0 <= k <= 52 /\ Zpos M = Zpos m * 2 ^ k.
Proof.
  intros Hm. pose proof (digits2_pos_bound m 53 ltac:(lia) Hm) as Hd.
  unfold double_of_Z, binary_normalize, binary_round.
  replace (fexp 53 1024 (Zpos (digits2_pos m) + 0))
    with (Zpos (digits2_pos m) - 53) by (unfold fexp, emin; lia).
  unfold shl_align.
  destruct (Zpos (digits2_pos m) - 53 - 0) as [|p|k] eqn:Hk; [|lia|].
  - exists m, 0. rewrite binary_round_aux_exact by lia.
    split; [reflexivity|]. split; lia.
  - exists (Pos.iter xO m k), (Zpos k).
    rewrite binary_round_aux_exact.
    + split; [f_equal; lia|]. split; [lia | apply Zpos_shift].
    + rewrite digits2_pos_shift. lia.
    + lia.
Qed.

Lemma trunc_Z_double_of_Z_pos (m : positive) :
  Zpos m < 2 ^ 53 ->
  trunc_Z (double_of_Z (Zpos m)) = Some (Zpos m) /\
  std_round (double_of_Z (Zpos m)) = double_of_Z (Zpos m).
Proof.
  intros Hm. destruct (double_of_Z_pos m Hm) as (M & k & Hrep & Hk & HM).
  assert (Hpow : 0 < 2 ^ k) by (apply Z.pow_pos_nonneg; lia).
  split.
  - rewrite Hrep. unfold trunc_Z.
    destruct (Z.leb_spec 0 (- k)).
    + replace k with 0 in * by lia. f_equal. cbn in HM. lia.
    + rewrite Z.opp_involutive, HM, Z.div_mul by lia. reflexivity.
  - rewrite Hrep at 1. unfold std_round.
    destruct (Z.leb_spec 0 (- k)); [symmetry; exact Hrep|].
    rewrite Z.opp_involutive, HM.
    replace (Zpos m * 2 ^ k + 2 ^ (k - 1)) with (2 ^ (k - 1) + Zpos m * 2 ^ k)
      by lia.
    rewrite Z.div_add by lia.
    rewrite Z.div_small; [reflexivity|].
    split; [apply Z.pow_nonneg; lia | apply Z.pow_lt_mono_r; lia].
Qed.

Lemma rounded_double_of_Z (z : Z) :
  0 <= z < 2 ^ 53 -> rounded (double_of_Z z) = Some z.
Proof.
  intros Hz. unfold rounded. destruct z as [|m|m]; [reflexivity| |lia].
  destruct (trunc_Z_double_of_Z_pos m) as [Ht Hr]; [lia|].
  rewrite Hr. exact Ht.
Qed.

Lemma fp_eq_double_of_Z (z : Z) :
  0 <= z < 2 ^ 53 -> fp_eq (double_of_Z z) (double_of_Z z) = true.
Proof.
  intros Hz. destruct z as [|m|m]; [reflexivity| |lia].
  destruct (double_of_Z_pos m) as (M & k & -> & _); [lia|].
  unfold fp_eq, SFeqb. cbn [SFcompare].
  rewrite Z.compare_refl, Pos.compare_cont_refl. reflexivity.
Qed.

Lemma to_unsigned_small (z : Z) : 0 <= z <= UINT_MAX -> to_unsigned z = z.
Proof. intros Hz. unfold to_unsigned, UINT_MAX in *. apply Z.mod_small. lia. Qed.

(** The pose at an integer cell. *)
Definition pose_of_cell (c : Z * Z) : Pose :=
  mkPose (mkPoint (double_of_Z (fst c)) (double_of_Z (snd c))).

(** A cell whose two indices are [unsigned int] values. *)
Definition in_grid_range (c : Z * Z) : Prop :=
  0 <= fst c <= UINT_MAX /\ 0 <= snd c <= UINT_MAX.

Lemma cell_of_pose_of_cell (c : Z * Z) :
  in_grid_range c -> cell_of (pose_of_cell c) = Ok c.
Proof.
  intros [Hx Hy]. destruct c as [cx cy]. cbn [fst snd] in *.
  apply cell_of_Ok. unfold pose_of_cell. cbn [position x y fst snd].
  unfold UINT_MAX in *.
  repeat split; try lia; apply rounded_double_of_Z; lia.
Qed.

Lemma pose_of_cell_on_free_cell (is_free : Z -> Z -> bool) (c : Z * Z) :
  in_grid_range c -> draw_is_free is_free c = true ->
  on_free_cell is_free (pose_of_cell c).
Proof.
  intros Hc Hfree. pose proof (cell_of_pose_of_cell c Hc) as Hcell.
  destruct c as [cx cy]. apply cell_of_Ok in Hcell.
  destruct Hc as [Hx Hy]. cbn [fst snd] in *.
  unfold draw_is_free in Hfree. cbn [fst snd] in Hfree.
  rewrite !to_unsigned_small in Hfree by assumption.
  exists cx, cy. tauto.
Qed.

(** X17. An [unsigned int] cell index written into a [double] coordinate and
    read back with [static_cast<unsigned int>(std::round(...))] is the same
    index, so [isCollisionFree] looks a pose placed on an integer cell up at
    that very cell. *)
Theorem cell_index_survives_double_round_trip (cx cy : Z)
    (Hx : 0 <= cx <= UINT_MAX) (Hy : 0 <= cy <= UINT_MAX) :
  static_cast_unsigned_int (std_round (double_of_Z cx)) = Ok cx /\
  cell_of (pose_of_cell (cx, cy)) = Ok (cx, cy) /\
  (forall is_free : Z -> Z -> bool,
     isCollisionFree is_free (mkPath [pose_of_cell (cx, cy)])
     = Ok (is_free cx cy)).
Proof.
  assert (Hcell : cell_of (pose_of_cell (cx, cy)) = Ok (cx, cy))
    by (apply cell_of_pose_of_cell; split; assumption).
  split; [|split; [exact Hcell|]].
  - apply static_cast_unsigned_int_Ok. split; [|assumption].
    apply rounded_double_of_Z. unfold UINT_MAX in *. lia.
  - intros is_free. unfold isCollisionFree. cbn [poses isCollisionFree_poses].
    rewrite Hcell. cbn [bind]. destruct (is_free cx cy); reflexivity.
Qed.

(** X17 at the cell (8, 4294967295). *)
Lemma cell_index_survives_double_round_trip_witness :
  cell_of (pose_of_cell (8, 4294967295)) = Ok (8, 4294967295).
Proof.
  refine (proj1 (proj2
    (cell_index_survives_double_round_trip 8 4294967295 _ _)));
    unfold UINT_MAX; lia.
Defined.

End FPProofs.

(** * A planner that answers with the straight two-point path *)

Module PlannerBatchProofs.
Import FP Rclcpp PlannerTester PlannerTesterProofs PlannerTesterExtras FPProofs.

(** The planner's full answer with the path made of the start cell and the
    goal cell. *)
Definition straight_answer (start target : Z * Z) : PlannerResponse :=
  mkPlannerResponse true true true RC_SUCCEEDED
    (mkPath [pose_of_cell start; pose_of_cell target]).

(** A drawn cell that is in range and free. *)
Definition free_draw (is_free : Z -> Z -> bool) (c : Z * Z) : Prop :=
  in_grid_range c /\ draw_is_free is_free c = true.

Lemma in_grid_range_double (c : Z * Z) :
  in_grid_range c -> 0 <= fst c < 2 ^ 53 /\ 0 <= snd c < 2 ^ 53.
Proof. unfold in_grid_range, UINT_MAX. lia. Qed.

Lemma straight_answer_valid (is_free : Z -> Z -> bool) (start target : Z * Z) :
  free_draw is_free start -> free_draw is_free target ->
  valid_path is_free (position (pose_of_cell start))
    (mkPoseStamped (pose_of_cell target))
    (mkPath [pose_of_cell start; pose_of_cell target]).
Proof.
  intros [Hs Hsf] [Ht Htf]. split.
  - cbn [poses]. repeat constructor; now apply pose_of_cell_on_free_cell.
  - exists (pose_of_cell start), [pose_of_cell target].
    split; [reflexivity|]. cbn [last]. unfold endpoints_equal.
    cbn [position pose x y pose_of_cell].
    destruct (in_grid_range_double _ Hs), (in_grid_range_double _ Ht).
    rewrite !fp_eq_double_of_Z by assumption. reflexivity.
Qed.

Lemma plannerTest_straight_answer (is_free : Z -> Z -> bool)
    (start target : Z * Z) (path : ComputePathToPoseResult) :
  free_draw is_free start -> free_draw is_free target ->
  plannerTest is_free (straight_answer start target)
    (position (pose_of_cell start)) (mkPoseStamped (pose_of_cell target)) path
  = Ok (true, mkPath [pose_of_cell start; pose_of_cell target]).
Proof.
  intros Hs Ht.
  apply (plannerTest_valid is_free (straight_answer start target)).
  - repeat split.
  - now apply straight_answer_valid.
Qed.

(** X18. A request between two free cells that the planner answers with the
    two-point path from the start cell to the goal cell passes [plannerTest]:
    both poses are looked up at the cells they were made from, and the ends
    compare equal to the requested start and goal. *)
Theorem plannerTest_accepts_straight_answer
    (is_free : Z -> Z -> bool) (start target : Z * Z)
    (path : ComputePathToPoseResult)
    (Hstart : free_draw is_free start) (Htarget : free_draw is_free target) :
  isCollisionFree is_free (mkPath [pose_of_cell start; pose_of_cell target])
  = Ok true /\
  isWithinTolerance (position (pose_of_cell start))
    (mkPoseStamped (pose_of_cell target))
    (mkPath [pose_of_cell start; pose_of_cell target]) = Ok true /\
  plannerTest is_free (straight_answer start target)
    (position (pose_of_cell start)) (mkPoseStamped (pose_of_cell target)) path
  = Ok (true, mkPath [pose_of_cell start; pose_of_cell target]).
Proof.
  destruct (straight_answer_valid is_free start target Hstart Htarget)
    as (Hfree & first & rest & Hposes & Hends).
  split; [|split].
  - apply (isCollisionFree_poses_true is_free). exact Hfree.
  - cbn [poses] in Hposes. inversion Hposes; subst.
    rewrite isWithinTolerance_nonempty, Hends. reflexivity.
  - now apply plannerTest_straight_answer.
Qed.

(** X18 for the start (1, 1) and the goal (8, 8) on a costmap that is free
    everywhere. *)
Lemma plannerTest_accepts_straight_answer_witness :
  plannerTest (fun _ _ => true) (straight_answer (1, 1) (8, 8))
    (position (pose_of_cell (1, 1))) (mkPoseStamped (pose_of_cell (8, 8)))
    (mkPath [])
  = Ok (true, mkPath [pose_of_cell (1, 1); pose_of_cell (8, 8)]).
Proof.
  refine (proj2 (proj2
    (plannerTest_accepts_straight_answer (fun _ _ => true) (1, 1) (8, 8)
       (mkPath []) _ _)));
    (split; [unfold in_grid_range, UINT_MAX; cbn; lia | reflexivity]).
Defined.

(** The draws and the answers of a batch in which every trial draws a free
    start and a free goal at once and is answered with the straight path. *)
Definition draws_of (trials : list ((Z * Z) * (Z * Z))) : list (Z * Z) :=
  flat_map (fun t => [fst t; snd t]) trials.
Definition answers_of (trials : list ((Z * Z) * (Z * Z))) : list PlannerResponse :=
  map (fun t => straight_answer (fst t) (snd t)) trials.

Lemma generate_random_free_head (is_free : Z -> Z -> bool)
    (d : Z * Z) (rest : list (Z * Z)) :
  draw_is_free is_free d = true ->
  generate_random is_free (d :: rest) = Ok (d, rest).
Proof.
  intros Hd. apply (generate_random_skips is_free [] rest d); [constructor|exact Hd].
Qed.

Lemma random_tests_loop_straight (is_free : Z -> Z -> bool)
    (trials : list ((Z * Z) * (Z * Z))) :
  Forall (fun t => free_draw is_free (fst t) /\ free_draw is_free (snd t)) trials ->
  forall num_fail path,
    random_tests_loop is_free (length trials) (draws_of trials)
      (answers_of trials) num_fail path = Ok num_fail.
Proof.
  induction 1 as [|[start target] trials [Hs Ht] _ IH]; intros num_fail path;
    [reflexivity|].
  cbn [length draws_of answers_of flat_map map app fst snd random_tests_loop].
  rewrite (generate_random_free_head is_free start) by apply Hs. cbn [bind].
  rewrite (generate_random_free_head is_free target) by apply Ht. cbn [bind fst snd].
  change (mkPoint (double_of_Z (fst start)) (double_of_Z (snd start)))
    with (position (pose_of_cell start)).
  change (mkPose (mkPoint (double_of_Z (fst target)) (double_of_Z (snd target))))
    with (pose_of_cell target).
  rewrite (plannerTest_straight_answer is_free start target path Hs Ht).
  cbn [bind negb]. apply IH.
Qed.

(** X19. A batch on a set, loaded costmap with the planner running, in which
    every trial draws a free start and a free goal and is answered with the
    straight two-point path between them, counts no failure and returns true
    for every acceptable ratio that is not below 0. *)
Theorem defaultPlannerRandomTests_passes_straight_answers
    (is_free : Z -> Z -> bool) (trials : list ((Z * Z) * (Z * Z)))
    (acceptable_fail_ratio : float)
    (Htrials : Forall (fun t => free_draw is_free (fst t) /\
                                free_draw is_free (snd t)) trials)
    (Hsome : trials <> [])
    (Hratio : fp_gt (float_of_Z 0) acceptable_fail_ratio = false) :
  random_tests_loop is_free (length trials) (draws_of trials)
    (answers_of trials) 0 (mkPath []) = Ok 0 /\
  defaultPlannerRandomTests is_free (mkTester true false)
    (mkEnvironment true (draws_of trials) (answers_of trials))
    (Z.of_nat (length trials)) acceptable_fail_ratio = Ok true.
Proof.
  pose proof (random_tests_loop_straight is_free trials Htrials 0 (mkPath []))
    as Hloop.
  split; [exact Hloop|].
  unfold defaultPlannerRandomTests, waitForPlanner.
  cbn [costmap_set_ using_fake_costmap_ planner_running draws responses negb bind].
  rewrite Nat2Z.id, Hloop. cbn [bind]. unfold fail_ratio_exceeded.
  assert (Hlen : Z.of_nat (length trials) <> 0)
    by (destruct trials; [congruence | cbn [length]; lia]).
  destruct (Z.eqb_spec (Z.of_nat (length trials)) 0) as [|_]; [contradiction|].
  cbn [bind]. rewrite Z.div_0_l by exact Hlen. rewrite Hratio. reflexivity.
Qed.

(** X19 for three trials from (1, 1) to (8, 8) with ratio 0.1. *)
Lemma defaultPlannerRandomTests_passes_straight_answers_witness :
  defaultPlannerRandomTests (fun _ _ => true) (mkTester true false)
    (mkEnvironment true (draws_of (repeat ((1, 1), (8, 8)) 3))
       (answers_of (repeat ((1, 1), (8, 8)) 3)))
    (Z.of_nat (length (repeat ((1, 1), (8, 8)) 3))) ratio_0_1 = Ok true.
Proof.
  refine (proj2
    (defaultPlannerRandomTests_passes_straight_answers (fun _ _ => true)
       (repeat ((1, 1), (8, 8)) 3) ratio_0_1 _ _ _)).
  - repeat constructor; cbn; unfold UINT_MAX; lia.
  - discriminate.
  - vm_compute. reflexivity.
Defined.

End PlannerBatchProofs.
